(** * Passive-Aggressive time-step classifier

    A shallow embedding of [src/prediction/predictor_model.py]: the tensor
    reshaper ([_get_X_and_y]), the probability decoders ([sigmoid],
    [softmax] and the binary [helper]), the window aggregation inside
    [predict], and the facade's [fit] / [evaluate] / [save] life cycle.

    Conventions.
    - An [ndarray] is its [shape] together with its contents as nested
      lists; [wf2] / [wf3] say that the contents agree with the shape.
    - The element type of the input tensor is a type [num] with a decidable
      equality, a strict total order and an integer cast (class [Scalar]);
      decision scores and probabilities are real numbers, so that what
      depends on the rounding of binary64 arithmetic is not stated here.
    - Python exceptions are values of [exn]; a fallible computation returns
      a [result].  Exceptions that come out of scikit-learn or joblib are
      [LibraryError]s, so that they are told apart from the ones the facade
      raises itself, with one exception: the [NotFittedError] of
      scikit-learn is the class the module imports and raises, so it is
      the same [NotFittedError].
    - The scikit-learn [MultiOutputClassifier] is a collaborator outside the
      repository: it is a [Classifier] structure the development is
      parametrised by. *)

From Stdlib Require Import Ascii String ZArith Bool Arith Lia List.
From Stdlib Require Import Reals Lra.
From Stdlib Require Import Sorted Permutation DecimalString.
Import ListNotations.

Set Implicit Arguments.

(** ** Exceptions and results *)

Inductive exn : Type :=
| ValueError (msg : string)
| IndexError (msg : string)
| AttributeError (msg : string)
| KeyError (msg : string)
| NotFittedError (msg : string)
| LibraryError (cls msg : string).

Inductive result (A : Type) : Type :=
| Ok (a : A)
| Raise (e : exn).

Arguments Ok {A} a.
Arguments Raise {A} e.

Definition bind {A B : Type} (r : result A) (k : A -> result B) : result B :=
  match r with
  | Ok a => k a
  | Raise e => Raise e
  end.

Notation "x <- e ;; k" := (bind e (fun x => k))
  (at level 61, e at next level, right associativity).
Notation "' p <- e ;; k" := (bind e (fun p => k))
  (at level 61, p pattern, e at next level, right associativity).

Definition raises {A : Type} (r : result A) : Prop :=
  exists e, r = Raise e.

(** ** Scalars of the input tensor *)

Class Scalar (num : Type) : Type := {
  num_eqb : num -> num -> bool;
  num_ltb : num -> num -> bool;
  astype_int : num -> Z;
  num_eqb_eq : forall x y, num_eqb x y = true <-> x = y;
  num_ltb_irrefl : forall x, num_ltb x x = false;
  num_ltb_trans : forall x y z,
    num_ltb x y = true -> num_ltb y z = true -> num_ltb x z = true;
  num_ltb_total : forall x y,
    num_ltb x y = true \/ x = y \/ num_ltb y x = true
}.

#[export, refine] Instance Z_Scalar : Scalar Z := {
  num_eqb := Z.eqb;
  num_ltb := Z.ltb;
  astype_int := fun z => z
}.
Proof.
  - intros x y. apply Z.eqb_eq.
  - intros x. apply Z.ltb_irrefl.
  - intros x y z H1 H2. apply Z.ltb_lt in H1, H2. apply Z.ltb_lt. lia.
  - intros x y. rewrite !Z.ltb_lt. lia.
Defined.

(** ** Arrays *)

Record ndarray2 (A : Type) : Type := mk2 {
  shape2 : nat * nat;
  rows2 : list (list A)
}.

Record ndarray3 (A : Type) : Type := mk3 {
  shape3 : nat * nat * nat;
  cells3 : list (list (list A))
}.

Definition wf2 {A : Type} (a : ndarray2 A) : Prop :=
  let '(n, c) := shape2 a in
  length (rows2 a) = n /\ Forall (fun r => length r = c) (rows2 a).

Definition wf3 {A : Type} (a : ndarray3 A) : Prop :=
  let '(n, t, d) := shape3 a in
  length (cells3 a) = n /\
  Forall (fun w => length w = t /\ Forall (fun r => length r = d) w)
         (cells3 a).

(** [l[start:stop]] with Python's normalisation of the two bounds; [None]
    is an omitted bound. *)
Definition clip_index (len : nat) (i : Z) : nat :=
  let i' := if (i <? 0)%Z then (i + Z.of_nat len)%Z else i in
  if (i' <? 0)%Z then 0
  else if (Z.of_nat len <=? i')%Z then len
  else Z.to_nat i'.

Definition slice_bounds (start : Z) (stop : option Z) (len : nat) : nat * nat :=
  (clip_index len start,
   match stop with Some s => clip_index len s | None => len end).

Definition py_slice {A : Type} (start : Z) (stop : option Z) (l : list A)
  : list A :=
  let '(lo, hi) := slice_bounds start stop (length l) in
  firstn (hi - lo) (skipn lo l).

Definition slice_len (start : Z) (stop : option Z) (len : nat) : nat :=
  let '(lo, hi) := slice_bounds start stop len in hi - lo.

(** [a[:, :, start:stop]] *)
Definition slice_axis2 {A : Type} (start : Z) (stop : option Z)
  (a : ndarray3 A) : ndarray3 A :=
  let '(n, t, d) := shape3 a in
  {| shape3 := (n, t, slice_len start stop d);
     cells3 := map (map (py_slice start stop)) (cells3 a) |}.

(** [a[:, :, i]]: an integer index on the last axis is checked against the
    axis length, negative indices count from the end. *)
Definition index_axis2 {A : Type} (i : Z) (a : ndarray3 A)
  : result (ndarray2 A) :=
  let '(n, t, d) := shape3 a in
  if ((i <? - Z.of_nat d) || (Z.of_nat d <=? i))%Z
  then Raise (IndexError "index is out of bounds for axis 2")
  else
    let j := Z.to_nat (if (i <? 0)%Z then i + Z.of_nat d else i)%Z in
    Ok {| shape2 := (n, t);
          rows2 := map (flat_map (fun r => firstn 1 (skipn j r)))
                       (cells3 a) |}.

(** [a.reshape(n, -1)] where [n] is the first dimension of [a]: the
    unknown dimension is the size divided by [n], which NumPy refuses when
    [n] is zero. *)
Definition reshape_rows {A : Type} (a : ndarray3 A) : result (ndarray2 A) :=
  let '(n, t, d) := shape3 a in
  if n =? 0
  then Raise (ValueError
                "cannot reshape array of size 0 into shape (0,newaxis)")
  else Ok {| shape2 := (n, t * d);
             rows2 := map (@concat A) (cells3 a) |}.

Definition astype {A B : Type} (f : A -> B) (a : ndarray2 A) : ndarray2 B :=
  {| shape2 := shape2 a; rows2 := map (map f) (rows2 a) |}.

Definition flatten {A : Type} (a : ndarray2 A) : list A :=
  concat (rows2 a).

(** ** Formatting of the error messages *)

Definition str_of_Z (z : Z) : string :=
  NilZero.string_of_int (Z.to_int z).

Definition str_of_nat (n : nat) : string :=
  NilZero.string_of_uint (Nat.to_uint n).

Definition train_length_msg (encode_len : Z) (T : nat) : string :=
  ("Training data expected to have " ++ str_of_Z encode_len
   ++ " length on axis 1. Found length " ++ str_of_nat T)%string.

Definition infer_length_msg (encode_len : Z) (T : nat) : string :=
  ("Inference data length expected to be >= " ++ str_of_Z encode_len
   ++ " on axis 1. Found length " ++ str_of_nat T)%string.

Definition not_fitted_msg : string := "Model is not fitted yet.".

Definition PREDICTOR_FILE_NAME : string := "predictor.joblib".

(** ** Probability decoders *)

Local Open Scope R_scope.

Definition sigmoid (x : R) : R := 1 / (1 + exp (- x)).

Definition row_sum (r : list R) : R := fold_right Rplus 0 r.

Definition row_max (r : list R) : R := fold_right Rmax (hd 0 r) (tl r).

(** One row of [softmax]: [e_x = exp(x - max(x))], then [e_x / sum(e_x)]. *)
Definition softmax_row (r : list R) : list R :=
  let e_x := map (fun v => exp (v - row_max r)) r in
  map (fun e => e / row_sum e_x) e_x.

Definition is_nil {A : Type} (l : list A) : bool :=
  match l with [] => true | _ :: _ => false end.

(** [softmax] on a 2-D array; [np.max] over an empty axis has no identity
    and raises. *)
Definition softmax (x : list (list R)) : result (list (list R)) :=
  if existsb is_nil x
  then Raise (ValueError
    "zero-size array to reduction operation maximum which has no identity")
  else Ok (map softmax_row x).

(** What an estimator's [decision_function] returns: a vector of [N] scores
    for a binary estimator, an [(N, n_classes)] array otherwise. *)
Inductive decision : Type :=
| Scores1 (s : list R)
| Scores2 (s : list (list R)).

(** The binary [helper]: [column_stack((1 - sigmoid(x), sigmoid(x)))]. *)
Definition binary_helper (x : decision) : result (list (list R)) :=
  match x with
  | Scores1 s => Ok (map (fun v => [1 - sigmoid v; sigmoid v]) s)
  | Scores2 s =>
      Ok (map (fun r => map (fun v => 1 - sigmoid v) r ++ map sigmoid r) s)
  end.

Definition softmax_helper (x : decision) : result (list (list R)) :=
  match x with
  | Scores1 _ =>
      Raise (ValueError "axis 1 is out of bounds for array of dimension 1")
  | Scores2 s => softmax s
  end.

(** [helper] as [predict] chooses it from [preds.shape[2]]. *)
Definition helper (num_classes : nat) : decision -> result (list (list R)) :=
  if num_classes =? 2 then binary_helper else softmax_helper.

(** ** Filling [preds] *)

Definition zeros (T N K : nat) : list (list (list R)) :=
  repeat (repeat (repeat 0 K) N) T.

Definition enumerate {A : Type} (l : list A) : list (nat * A) :=
  combine (seq 0 (length l)) l.

Definition getitem {A : Type} (l : list A) (i : nat) : result A :=
  match nth_error l i with
  | Some x => Ok x
  | None => Raise (IndexError "index is out of bounds")
  end.

Fixpoint setitem {A : Type} (i : nat) (v : A) (l : list A)
  : result (list A) :=
  match l, i with
  | [], _ => Raise (IndexError "index is out of bounds")
  | _ :: t, O => Ok (v :: t)
  | h :: t, S i' => t' <- setitem i' v t ;; Ok (h :: t')
  end.

Fixpoint traverse {A B : Type} (f : A -> result B) (l : list A)
  : result (list B) :=
  match l with
  | [] => Ok []
  | a :: t => b <- f a ;; t' <- traverse f t ;; Ok (b :: t')
  end.

(** Broadcasting of one axis to length [n]: the axis has that length
    already, or it has length one and is repeated. *)
Definition broadcast_axis {A : Type} (n : nat) (l : list A)
  : result (list A) :=
  if (length l =? n)%nat then Ok l
  else match l with
       | [x] => Ok (repeat x n)
       | _ => Raise (ValueError "could not broadcast input array")
       end.

Definition broadcast2 (N K : nat) (v : list (list R))
  : result (list (list R)) :=
  rows <- traverse (broadcast_axis K) v ;;
  broadcast_axis N rows.

(** ** Python dictionaries keyed by [(series_id, step_id)]

    An association list in insertion order with at most one entry per
    key, as a [dict] is. *)

Section Dict.
Context {num : Type} {Sc : Scalar num}.

Definition key : Type := (num * num)%type.

Definition key_eqb (k1 k2 : key) : bool :=
  num_eqb (fst k1) (fst k2) && num_eqb (snd k1) (snd k2).

(** Tuple comparison: the first components decide unless they are
    equal. *)
Definition key_ltb (k1 k2 : key) : bool :=
  if num_eqb (fst k1) (fst k2) then num_ltb (snd k1) (snd k2)
  else num_ltb (fst k1) (fst k2).

Fixpoint dict_get {V : Type} (d : list (key * V)) (k : key) (default : V)
  : V :=
  match d with
  | [] => default
  | (k', v) :: t => if key_eqb k k' then v else dict_get t k default
  end.

Fixpoint dict_set {V : Type} (d : list (key * V)) (k : key) (v : V)
  : list (key * V) :=
  match d with
  | [] => [(k, v)]
  | (k', v') :: t =>
      if key_eqb k k' then (k', v) :: t else (k', v') :: dict_set t k v
  end.

Fixpoint dict_getitem {V : Type} (d : list (key * V)) (k : key)
  : result V :=
  match d with
  | [] => Raise (KeyError "key not found")
  | (k', v) :: t => if key_eqb k k' then Ok v else dict_getitem t k
  end.

Definition dict_keys {V : Type} (d : list (key * V)) : list key :=
  map fst d.

Definition dict_values {V : Type} (d : list (key * V)) : list V :=
  map snd d.

(** [sorted]: a stable insertion sort by tuple comparison. *)
Fixpoint insert_sorted (k : key) (l : list key) : list key :=
  match l with
  | [] => [k]
  | h :: t => if key_ltb h k then h :: insert_sorted k t else k :: h :: t
  end.

Definition sorted (l : list key) : list key :=
  fold_right insert_sorted [] l.

End Dict.

(** ** The collaborators outside the repository *)

Inductive lib_result (A : Type) : Type :=
| LibOk (a : A)
| LibRaise (cls msg : string).

Arguments LibOk {A} a.
Arguments LibRaise {A} cls msg.

(** An exception raised inside scikit-learn, as the Python exception it
    is: [sklearn.exceptions.NotFittedError] is the [NotFittedError] that the
    module imports and raises itself, every other class is a
    [LibraryError]. *)
Definition sk_exn (cls msg : string) : exn :=
  if (cls =? "NotFittedError")%string then NotFittedError msg
  else LibraryError cls msg.

(** The result of a call into scikit-learn. *)
Definition lift {A : Type} (r : lib_result A) : result A :=
  match r with
  | LibOk a => Ok a
  | LibRaise cls msg => Raise (sk_exn cls msg)
  end.

(** The result of a call into joblib, whose exceptions are those of
    pickling and of the file system. *)
Definition lift_io {A : Type} (r : lib_result A) : result A :=
  match r with
  | LibOk a => Ok a
  | LibRaise cls msg => Raise (LibraryError cls msg)
  end.

(** scikit-learn's [MultiOutputClassifier] over [PassiveAggressiveClassifier],
    [f1_score] and [joblib.dump].  [clf_fit] returns the classifier object
    as the call leaves it, together with the exception when it raised. *)
Class Classifier (num : Type) : Type := {
  clf : Type;
  estimator : Type;
  kwargs : Type;
  MultiOutputClassifier : R -> kwargs -> clf;
  clf_fit : clf -> ndarray2 num -> ndarray2 Z -> clf * option (string * string);
  estimators_ : clf -> lib_result (list estimator);
  decision_function : estimator -> ndarray2 num -> lib_result decision;
  clf_predict : clf -> ndarray2 num -> lib_result (ndarray2 Z);
  f1_score : list Z -> list Z -> lib_result R;
  joblib_dump : string -> lib_result unit
}.

(** Modelled from the spec: the data schema ([schema.data_schema], outside
    [src/]) exposes an ordered set of target class labels, whose length is
    the width of every probability vector. *)
Record TimeStepClassificationSchema : Type := mkSchema {
  target_classes : list string
}.

(** ** The facade *)

Section Facade.
Context {num : Type} {Sc : Scalar num} {cl : Classifier num}.

Record TimeStepClassifier : Type := mkTSC {
  data_schema : TimeStepClassificationSchema;
  encode_len : Z;
  padding_value : num;
  C : R;
  kw : kwargs;
  model : option clf;
  _is_trained : bool
}.

Definition build_model (c : R) (k : kwargs) : clf :=
  MultiOutputClassifier c k.

(** [__init__] *)
Definition init (schema : TimeStepClassificationSchema) (enc : Z)
  (pad : num) (c : R) (k : kwargs) : TimeStepClassifier :=
  {| data_schema := schema;
     encode_len := enc;
     padding_value := pad;
     C := c;
     kw := k;
     model := Some (build_model c k);
     _is_trained := false |}.

(** The second component of what [_get_X_and_y] returns: the labels when
    training, the window identifiers at inference. *)
Definition second (is_train : bool) : Type :=
  if is_train then ndarray2 Z else ndarray3 num.

Definition _get_X_and_y (self : TimeStepClassifier) (data : ndarray3 num)
  (is_train : bool) : result (ndarray2 num * second is_train) :=
  let '(N, T, D) := shape3 data in
  match is_train as b return result (ndarray2 num * second b) with
  | true =>
      if negb (Z.of_nat T =? encode_len self)%Z
      then Raise (ValueError (train_length_msg (encode_len self) T))
      else
        X <- reshape_rows (slice_axis2 2 (Some (-1)%Z) data) ;;
        y <- index_axis2 (-1) data ;;
        Ok (X, astype astype_int y)
  | false =>
      if (Z.of_nat T <? encode_len self)%Z
      then Raise (ValueError (infer_length_msg (encode_len self) T))
      else
        X <- reshape_rows (slice_axis2 2 None data) ;;
        Ok (X, slice_axis2 0 (Some 2%Z) data)
  end.

Definition the_model (self : TimeStepClassifier) : result clf :=
  match model self with
  | Some m => Ok m
  | None => Raise (AttributeError "'NoneType' object has no attribute")
  end.

Definition set_model (self : TimeStepClassifier) (m : clf)
  (trained : bool) : TimeStepClassifier :=
  {| data_schema := data_schema self;
     encode_len := encode_len self;
     padding_value := padding_value self;
     C := C self;
     kw := kw self;
     model := Some m;
     _is_trained := trained |}.

(** [fit] returns the facade as the call leaves it and what the call
    returned or raised. *)
Definition fit (self : TimeStepClassifier) (train_data : ndarray3 num)
  : TimeStepClassifier * result clf :=
  match _get_X_and_y self train_data true with
  | Raise e => (self, Raise e)
  | Ok (train_X, train_y) =>
      match the_model self with
      | Raise e => (self, Raise e)
      | Ok m =>
          match clf_fit m train_X train_y with
          | (m', Some (cls, msg)) =>
              (set_model self m' (_is_trained self),
               Raise (sk_exn cls msg))
          | (m', None) => (set_model self m' true, Ok m')
          end
      end
  end.

(** The loop that fills [preds[i, :, :]] from the estimators. *)
Fixpoint fill_preds (N K : nat) (X : ndarray2 num)
  (ests : list (nat * estimator)) (preds : list (list (list R)))
  : result (list (list (list R))) :=
  match ests with
  | [] => Ok preds
  | (i, est) :: rest =>
      y_decision <- lift (decision_function est X) ;;
      p <- helper K y_decision ;;
      p' <- broadcast2 N K p ;;
      preds' <- setitem i p' preds ;;
      fill_preds N K X rest preds'
  end.

(** The inner loop of the aggregation. *)
Fixpoint inner_loop (window : list (list num)) (series_id : num)
  (steps : list (nat * list R)) (prob_dict : list (key * list (list R)))
  : result (list (key * list (list R))) :=
  match steps with
  | [] => Ok prob_dict
  | (step_index, step) :: rest =>
      row <- getitem window step_index ;;
      step_id <- getitem row 1 ;;
      let k := (series_id, step_id) in
      inner_loop window series_id rest
        (dict_set prob_dict k (dict_get prob_dict k [] ++ [step]))
  end.

(** The outer loop of the aggregation. *)
Fixpoint outer_loop (window_ids : list (list (list num)))
  (ps : list (nat * list (list R)))
  (prob_dict : list (key * list (list R)))
  : result (list (key * list (list R))) :=
  match ps with
  | [] => Ok prob_dict
  | (index, prediction) :: rest =>
      window <- getitem window_ids index ;;
      row0 <- getitem window 0 ;;
      series_id <- getitem row0 0 ;;
      d <- inner_loop window series_id (enumerate prediction) prob_dict ;;
      outer_loop window_ids rest d
  end.

Definition accumulate (preds : list (list (list R)))
  (window_ids : list (list (list num)))
  : result (list (key * list (list R))) :=
  outer_loop window_ids (enumerate preds) [].

(** [np.mean(np.array(v), axis=0)] *)
Definition mean_axis0 (v : list (list R)) : list R :=
  map (fun j => row_sum (map (fun p => nth j p 0) v) / INR (length v))
      (seq 0 (length (hd [] v))).

(** The comprehension that averages and drops the padding keys. *)
Definition mean_unpadded (pad : num) (prob_dict : list (key * list (list R)))
  : list (key * list R) :=
  map (fun kv => (fst kv, mean_axis0 (snd kv)))
      (filter (fun kv => negb (num_eqb (snd (fst kv)) pad)) prob_dict).

(** [{key: prob_dict[key] for key in sorted(prob_dict.keys())}] *)
Definition sort_dict (prob_dict : list (key * list R))
  : result (list (key * list R)) :=
  traverse (fun k => v <- dict_getitem prob_dict k ;; Ok (k, v))
           (sorted (dict_keys prob_dict)).

(** [np.vstack] on the values of the dictionary taken as a sequence: no
    rows, or rows of different lengths, raise. *)
Definition vstack (rows : list (list R)) : result (list (list R)) :=
  match rows with
  | [] => Raise (ValueError "need at least one array to concatenate")
  | r0 :: _ =>
      if forallb (fun r => (length r =? length r0)%nat) rows then Ok rows
      else Raise (ValueError
             "all the input array dimensions must match exactly")
  end.

(** [preds] as [predict] computes it. *)
Definition compute_preds (self : TimeStepClassifier) (X : ndarray2 num)
  (window_ids : ndarray3 num) : result (list (list (list R))) :=
  let K := length (target_classes (data_schema self)) in
  let T := snd (fst (shape3 window_ids)) in
  let N := fst (shape2 X) in
  m <- the_model self ;;
  ests <- lift (estimators_ m) ;;
  fill_preds N K X (enumerate ests) (zeros T N K).

(** [predict] up to the end of the accumulation loop. *)
Definition predict_prob_dict (self : TimeStepClassifier)
  (data : ndarray3 num) : result (list (key * list (list R))) :=
  ' (X, window_ids) <- _get_X_and_y self data false ;;
  preds <- compute_preds self X window_ids ;;
  accumulate preds (cells3 window_ids).

(** [predict] up to [sorted_dict]. *)
Definition predict_sorted_dict (self : TimeStepClassifier)
  (data : ndarray3 num) : result (list (key * list R)) :=
  prob_dict <- predict_prob_dict self data ;;
  sort_dict (mean_unpadded (padding_value self) prob_dict).

Definition predict (self : TimeStepClassifier) (data : ndarray3 num)
  : result (list (list R)) :=
  sorted_dict <- predict_sorted_dict self data ;;
  vstack (dict_values sorted_dict).

Definition evaluate (self : TimeStepClassifier) (test_data : ndarray3 num)
  : result R :=
  ' (x_test, y_test) <- _get_X_and_y self test_data true ;;
  match model self with
  | Some m =>
      prediction <- lift (clf_predict m x_test) ;;
      lift (f1_score (flatten y_test) (flatten prediction))
  | None => Raise (NotFittedError not_fitted_msg)
  end.

(** [os.path.join] of a directory and a relative file name. *)
Definition path_join (dir file : string) : string :=
  if (dir =? "")%string then file
  else if (String.substring (String.length dir - 1) 1 dir =? "/")%string
       then (dir ++ file)%string
       else (dir ++ "/" ++ file)%string.

Definition save (self : TimeStepClassifier) (model_dir_path : string)
  : result unit :=
  if negb (_is_trained self)
  then Raise (NotFittedError not_fitted_msg)
  else lift_io (joblib_dump (path_join model_dir_path PREDICTOR_FILE_NAME)).

End Facade.

Local Close Scope R_scope.

(** ** A classifier to run the facade on concrete tensors

    Its state is [None] before [fit], afterwards the number of fitted
    estimators and the number of features they were fitted on.  As
    scikit-learn does, [fit] refuses a feature matrix without columns and
    a step whose labels are all of one class, and a fitted estimator
    refuses a feature matrix of another width.  Every fitted estimator
    scores every window [0]. *)

Definition single_class (col : list Z) : bool :=
  match col with
  | [] => true
  | v :: t => forallb (Z.eqb v) t
  end.

Definition label_columns (y : ndarray2 Z) : list (list Z) :=
  map (fun t => map (fun row => nth t row 0%Z) (rows2 y))
      (seq 0 (snd (shape2 y))).

Definition stub_fit (m : option (nat * nat)) (X y : ndarray2 Z)
  : option (nat * nat) * option (string * string) :=
  if (snd (shape2 X) =? 0)%nat
  then (m, Some ("ValueError", "Found array with 0 feature(s)")%string)
  else if existsb single_class (label_columns y)
  then (m, Some ("ValueError",
                 "The number of classes has to be greater than one")%string)
  else (Some (snd (shape2 y), snd (shape2 X)), None).

Definition stub_estimators (m : option (nat * nat))
  : lib_result (list (nat * nat)) :=
  match m with
  | Some (t, w) => LibOk (map (fun i => (i, w)) (seq 0 t))
  | None => LibRaise "AttributeError" "no attribute 'estimators_'"
  end.

Definition stub_decision (e : nat * nat) (X : ndarray2 Z)
  : lib_result decision :=
  if (snd (shape2 X) =? snd e)%nat
  then LibOk (Scores1 (map (fun _ => 0%R) (rows2 X)))
  else LibRaise "ValueError" "X has another number of features".

Definition stub_predict (m : option (nat * nat)) (X : ndarray2 Z)
  : lib_result (ndarray2 Z) :=
  match m with
  | Some (t, w) =>
      if (snd (shape2 X) =? w)%nat
      then LibOk {| shape2 := (fst (shape2 X), t);
                    rows2 := map (fun _ => repeat 0%Z t) (rows2 X) |}
      else LibRaise "ValueError" "X has another number of features"
  | None => LibRaise "NotFittedError" "This instance is not fitted yet."
  end.

#[export] Instance stub : Classifier Z := {
  clf := option (nat * nat);
  estimator := (nat * nat)%type;
  kwargs := unit;
  MultiOutputClassifier := fun _ _ => None;
  clf_fit := stub_fit;
  estimators_ := stub_estimators;
  decision_function := stub_decision;
  clf_predict := stub_predict;
  f1_score := fun _ _ => LibOk 1%R;
  joblib_dump := fun _ => LibOk tt
}.

(** An untrained facade over two target classes, with encode length 2 and
    padding step-id [-1]. *)
Definition facade0 : TimeStepClassifier :=
  init {| target_classes := ["0"; "1"]%string |} 2%Z (-1)%Z 1%R tt.

(** Training tensor: two windows of two steps, columns
    (series, step, feature, label). *)
Definition train2 : ndarray3 Z :=
  {| shape3 := (2, 2, 4)%nat;
     cells3 := [ [ [1; 10; 5; 0]; [1; 11; 6; 1] ];
                 [ [2; 20; 7; 1]; [2; 21; 8; 0] ] ]%Z |}.

(** Inference tensor: the same two windows without the label column. *)
Definition infer2 : ndarray3 Z :=
  {| shape3 := (2, 2, 3)%nat;
     cells3 := [ [ [1; 10; 5]; [1; 11; 6] ];
                 [ [2; 20; 7]; [2; 21; 8] ] ]%Z |}.

(** The facade after [fit] on [train2]. *)
Definition facade1 : TimeStepClassifier := fst (fit facade0 train2).

(** A test tensor of one window that is one step longer than the encode
    length of [facade0]. *)
Definition long_test : ndarray3 Z :=
  {| shape3 := (1, 3, 4)%nat;
     cells3 := [ [ [1; 10; 5; 0]; [1; 11; 6; 1]; [1; 12; 7; 0] ] ]%Z |}.

(** Strictly ascending tuple order on keys. *)
Definition key_lt {num : Type} {Sc : Scalar num} (k1 k2 : key) : Prop :=
  key_ltb k1 k2 = true.

(** The predictions of the failing input of the aggregation: [preds[t][n]]
    for two step-outputs [t] and two windows [n], all different. *)
Definition p00 : list R := [1; 0]%R.
Definition p01 : list R := [0; 1]%R.
Definition p10 : list R := [1 / 2; 1 / 2]%R.
Definition p11 : list R := [1 / 4; 3 / 4]%R.

Definition preds2 : list (list (list R)) := [ [p00; p01]; [p10; p11] ].

(** The window identifiers of [infer2]: window 0 is series 1 with steps
    10 and 11, window 1 is series 2 with steps 20 and 21. *)
Definition ids2 : list (list (list Z)) :=
  [ [ [1; 10]; [1; 11] ]; [ [2; 20]; [2; 21] ] ]%Z.

(** One window of two steps. *)
Definition single_window : ndarray3 Z :=
  {| shape3 := (1, 2, 3)%nat;
     cells3 := [ [ [1; 10; 5]; [1; 11; 6] ] ]%Z |}.

(** Two windows in which every step is padding. *)
Definition padded2 : ndarray3 Z :=
  {| shape3 := (2, 2, 3)%nat;
     cells3 := [ [ [1; -1; 5]; [1; -1; 6] ];
                 [ [2; -1; 7]; [2; -1; 8] ] ]%Z |}.

(** A batch without windows. *)
Definition empty_batch : ndarray3 Z :=
  {| shape3 := (0, 2, 4)%nat; cells3 := [] |}.

(** The length errors that [_get_X_and_y] raises (ShapeMismatch). *)
Definition ShapeMismatch (e : exn) : Prop :=
  exists (enc : Z) (T : nat),
    e = ValueError (train_length_msg enc T) \/
    e = ValueError (infer_length_msg enc T).

(** An exception that is not a length error: any exception but a
    [ValueError] whose message starts like the two length messages. *)
Definition foreign (e : exn) : bool :=
  match e with
  | ValueError (String c _) =>
      negb (Ascii.eqb c "T"%char) && negb (Ascii.eqb c "I"%char)
  | _ => true
  end.

Definition safe {A : Type} (r : result A) : Prop :=
  forall e, r = Raise e -> foreign e = true.

(** The time dimension of a tensor. *)
Definition time_dim {A : Type} (a : ndarray3 A) : nat :=
  snd (fst (shape3 a)).

(** ** The entry points of the module *)

Section EntryPoints.
Context {num : Type} {Sc : Scalar num} {cl : Classifier num}.

(** The [hyperparameters] dict that [train_predictor_model] unpacks into
    the constructor: the required key [encode_len], the optional key [C]
    (default [1.0]) and the remaining keys, which go to the classifier. *)
Record hyperparameters : Type := mkHP {
  hp_encode_len : Z;
  hp_C : option R;
  hp_kwargs : kwargs
}.

(** [train_predictor_model]: the facade is returned when [fit] returns,
    an exception of [fit] propagates. *)
Definition train_predictor_model (train_data : ndarray3 num)
  (schema : TimeStepClassificationSchema) (hp : hyperparameters)
  (pad : num) : result TimeStepClassifier :=
  let model :=
    init schema (hp_encode_len hp) pad
         (match hp_C hp with Some c => c | None => 1%R end)
         (hp_kwargs hp) in
  match fit model train_data with
  | (model', Ok _) => Ok model'
  | (_, Raise e) => Raise e
  end.

Definition predict_with_model (model : TimeStepClassifier)
  (test_data : ndarray3 num) : result (list (list R)) :=
  predict model test_data.

Definition evaluate_predictor_model (model : TimeStepClassifier)
  (test_split : ndarray3 num) : result R :=
  evaluate model test_split.

End EntryPoints.

(** The two operations of [os] that [save_predictor_model] uses, over a
    state [fs] of the file system; [makedirs] returns the state it leaves
    and the exception when it raised. *)
Class OS : Type := {
  fs : Type;
  path_exists : fs -> string -> bool;
  makedirs : fs -> string -> fs * option (string * string)
}.

(** [save_predictor_model]; the state returned is the file system as the
    directory step leaves it (what [joblib.dump] writes is not part of
    it). *)
Definition save_predictor_model {num : Type} {cl : Classifier num}
  {os : OS} (st : fs) (model : TimeStepClassifier)
  (predictor_dir_path : string) : fs * result unit :=
  if negb (path_exists st predictor_dir_path)
  then match makedirs st predictor_dir_path with
       | (st', Some (cls, msg)) => (st', Raise (LibraryError cls msg))
       | (st', None) => (st', save model predictor_dir_path)
       end
  else (st, save model predictor_dir_path).

(** A file system that is the list of its directories. *)
#[export] Instance stub_os : OS := {
  fs := list string;
  path_exists := fun st p => existsb (String.eqb p) st;
  makedirs := fun st p => (p :: st, None)
}.

(** [preds] has shape (T, N, K). *)
Definition preds_shape (T N K : nat) (preds : list (list (list R))) : Prop :=
  length preds = T /\
  Forall (fun p => length p = N /\ Forall (fun r => length r = K) p) preds.

(** The number of vectors a dictionary of lists holds. *)
Definition dict_total {num : Type} {V : Type}
  (d : list (@key num * list V)) : nat :=
  list_sum (map (fun kv => length (snd kv)) d).

(** A tensor with a single column. *)
Definition one_column : ndarray3 Z :=
  {| shape3 := (2, 2, 1)%nat;
     cells3 := [ [ [1]; [1] ]; [ [2]; [2] ] ]%Z |}.

(** Three windows of two steps. *)
Definition infer3 : ndarray3 Z :=
  {| shape3 := (3, 2, 3)%nat;
     cells3 := [ [ [1; 10; 5]; [1; 11; 6] ];
                 [ [2; 20; 7]; [2; 21; 8] ];
                 [ [3; 30; 9]; [3; 31; 4] ] ]%Z |}.

(** Training tensor of two windows of two steps with three features per
    step, and the facade fitted on it: two estimators over six features. *)
Definition train26 : ndarray3 Z :=
  {| shape3 := (2, 2, 6)%nat;
     cells3 := [ [ [1; 10; 5; 6; 7; 0]; [1; 11; 6; 7; 8; 1] ];
                 [ [2; 20; 7; 8; 9; 1]; [2; 21; 8; 9; 1; 0] ] ]%Z |}.

Definition facade26 : TimeStepClassifier := fst (fit facade0 train26).

(** Inference tensor of three windows of three steps with two features
    per step: six features per window again, one step more than
    [facade26] has estimators. *)
Definition infer34 : ndarray3 Z :=
  {| shape3 := (3, 3, 4)%nat;
     cells3 := [ [ [1; 10; 5; 6]; [1; 11; 6; 7]; [1; 12; 7; 8] ];
                 [ [2; 20; 7; 8]; [2; 21; 8; 9]; [2; 22; 9; 1] ];
                 [ [3; 30; 9; 1]; [3; 31; 4; 2]; [3; 32; 1; 3] ] ]%Z |}.

(** Two dictionaries of means with the same entries in opposite
    insertion orders. *)
Definition means_a : list (@key Z * list R) :=
  [ ((2, 20)%Z, p10); ((1, 10)%Z, p00); ((1, 11)%Z, p01) ].

Definition means_b : list (@key Z * list R) :=
  [ ((1, 11)%Z, p01); ((1, 10)%Z, p00); ((2, 20)%Z, p10) ].

(** Hyperparameters with the encode length of [train2] and no [C]. *)
Definition hp2 : hyperparameters :=
  {| hp_encode_len := 2%Z; hp_C := None; hp_kwargs := tt |}.

(** A facade over three target classes, fitted on [train2]. *)
Definition facade3 : TimeStepClassifier :=
  fst (fit (init {| target_classes := ["0"; "1"; "2"]%string |}
                 2%Z (-1)%Z 1%R tt) train2).

(** A tensor of one window and two steps without columns. *)
Definition no_columns : ndarray3 Z :=
  {| shape3 := (1, 2, 0)%nat; cells3 := [ [ []; [] ] ] |}.

(** Two training windows of one step, one inference window of one step,
    and the facade with encode length 1 fitted on the former. *)
Definition train11 : ndarray3 Z :=
  {| shape3 := (2, 1, 4)%nat;
     cells3 := [ [ [1; 10; 5; 0] ]; [ [2; 20; 7; 1] ] ]%Z |}.

Definition infer11 : ndarray3 Z :=
  {| shape3 := (1, 1, 3)%nat; cells3 := [ [ [1; 10; 5] ] ]%Z |}.

Definition facade11 : TimeStepClassifier :=
  fst (fit (init {| target_classes := ["0"; "1"]%string |}
                 1%Z (-1)%Z 1%R tt) train11).

Unset Implicit Arguments.

(** * Properties *)

(** ** The tensor reshaper *)

Lemma clip_index_nonneg (len : nat) (i : Z) :
  (0 <= i)%Z -> clip_index len i = Nat.min len (Z.to_nat i).
Proof.
  intros Hi. unfold clip_index.
  destruct (Z.ltb_spec i 0) as [E|_]; [lia|].
  destruct (Z.ltb_spec i 0) as [E|_]; [lia|].
  destruct (Z.leb_spec (Z.of_nat len) i); lia.
Qed.

Lemma clip_index_neg (len : nat) (i : Z) :
  (i < 0)%Z -> clip_index len i = Z.to_nat (i + Z.of_nat len).
Proof.
  intros Hi. unfold clip_index.
  destruct (Z.ltb_spec i 0) as [_|E]; [|lia].
  destruct (Z.ltb_spec (i + Z.of_nat len) 0) as [E|E]; [lia|].
  destruct (Z.leb_spec (Z.of_nat len) (i + Z.of_nat len)); lia.
Qed.

Lemma slice_len_train (d : nat) : slice_len 2 (Some (-1)%Z) d = (d - 3)%nat.
Proof.
  unfold slice_len, slice_bounds.
  rewrite (clip_index_nonneg d 2%Z), (clip_index_neg d (-1)%Z) by lia. lia.
Qed.

Lemma slice_len_infer (d : nat) : slice_len 2 None d = (d - 2)%nat.
Proof.
  unfold slice_len, slice_bounds. rewrite clip_index_nonneg by lia. lia.
Qed.

Lemma slice_len_ids (d : nat) : slice_len 0 (Some 2%Z) d = Nat.min 2 d.
Proof.
  unfold slice_len, slice_bounds. rewrite !clip_index_nonneg by lia. lia.
Qed.

Lemma skipn_min_length {A : Type} (n : nat) (l : list A) :
  skipn (Nat.min (length l) n) l = skipn n l.
Proof.
  destruct (Nat.le_gt_cases n (length l)) as [H|H].
  - rewrite Nat.min_r by exact H. reflexivity.
  - rewrite Nat.min_l by lia.
    rewrite skipn_all. symmetry. apply skipn_all2. lia.
Qed.

Lemma py_slice_features_train {A : Type} (r : list A) :
  py_slice 2 (Some (-1)%Z) r = firstn (length r - 3) (skipn 2 r).
Proof.
  unfold py_slice, slice_bounds.
  rewrite (clip_index_nonneg _ 2%Z), (clip_index_neg _ (-1)%Z) by lia.
  rewrite skipn_min_length. f_equal. lia.
Qed.

Lemma py_slice_features_infer {A : Type} (r : list A) :
  py_slice 2 None r = skipn 2 r.
Proof.
  unfold py_slice, slice_bounds.
  rewrite clip_index_nonneg by lia.
  rewrite skipn_min_length. apply firstn_all2.
  rewrite length_skipn. lia.
Qed.

Lemma py_slice_ids {A : Type} (r : list A) :
  py_slice 0 (Some 2%Z) r = firstn 2 r.
Proof.
  unfold py_slice, slice_bounds.
  rewrite !clip_index_nonneg by lia.
  replace (Nat.min (length r) (Z.to_nat 0)) with 0%nat by lia.
  cbn [skipn]. rewrite Nat.sub_0_r.
  destruct (Nat.le_gt_cases 2 (length r)) as [H|H].
  - rewrite Nat.min_r by lia. reflexivity.
  - rewrite Nat.min_l by lia. rewrite firstn_all. symmetry.
    apply firstn_all2. lia.
Qed.

Lemma length_concat_const {A : Type} (c : nat) (w : list (list A)) :
  Forall (fun r => length r = c) w -> length (concat w) = (length w * c)%nat.
Proof.
  induction 1 as [|r w Hr _ IH]; [reflexivity|].
  cbn [concat length]. rewrite length_app, IH, Hr. lia.
Qed.

Lemma last_column {A : Type} (d : A) (n : nat) (r : list A) :
  length r = S n -> firstn 1 (skipn n r) = [last r d].
Proof.
  revert r. induction n as [|n IH]; intros r Hr.
  - destruct r as [|a [|b r]]; try discriminate. reflexivity.
  - destruct r as [|a r]; [discriminate|].
    cbn [skipn]. rewrite IH by (cbn in Hr; lia).
    destruct r; [discriminate | reflexivity].
Qed.

Lemma flat_map_singleton {A B : Type} (f : A -> list B) (g : A -> B)
  (l : list A) :
  Forall (fun a => f a = [g a]) l -> flat_map f l = map g l.
Proof.
  induction 1 as [|a l Ha _ IH]; [reflexivity|].
  cbn [flat_map map]. rewrite Ha, IH. reflexivity.
Qed.

Section ReshaperFacts.
Context {num : Type} {Sc : Scalar num} {cl : Classifier num}.

Lemma wf3_cells (data : ndarray3 num) (N T D : nat) :
  shape3 data = (N, T, D) -> wf3 data ->
  length (cells3 data) = N /\
  Forall (fun w => length w = T /\ Forall (fun r => length r = D) w)
         (cells3 data).
Proof.
  unfold wf3. intros ->. exact (fun H => H).
Qed.

Lemma wf2_flattened (f : list num -> list num) (c T : nat)
  (cells : list (list (list num))) (P : list num -> Prop) :
  (forall r, P r -> length (f r) = c) ->
  Forall (fun w => length w = T /\ Forall P w) cells ->
  Forall (fun r => length r = (T * c)%nat)
         (map (fun w => concat (map f w)) cells).
Proof.
  intros Hf Hc. apply Forall_map.
  eapply Forall_impl; [|exact Hc].
  cbn beta. intros w [Hw Hr].
  rewrite (length_concat_const c).
  - rewrite length_map, Hw. reflexivity.
  - apply Forall_map. eapply Forall_impl; [|exact Hr]. exact Hf.
Qed.

(** C3 (as amended).  For a well-formed tensor of shape (N, T, D) with at
    least one window: in TRAIN mode with T = encode_len and at least one
    column the extraction returns X, the columns 2 .. D-2 of every step
    flattened per window into shape (N, T*(D-3)) (no column when D < 3),
    and y, the last column cast to integer, of shape (N, T); in INFER mode
    with T >= encode_len and at least two columns it returns X, the columns
    from 2 on flattened into shape (N, T*(D-2)), and ids, the first two
    columns, of shape (N, T, 2).  The function is a pure function of the
    facade and the tensor: it assigns to neither. *)
Theorem get_X_and_y_extracts :
  forall (self : TimeStepClassifier) (data : ndarray3 num) (N T D : nat),
    shape3 data = (N, T, D) -> wf3 data -> 1 <= N ->
    (Z.of_nat T = encode_len self -> 1 <= D ->
     exists (X : ndarray2 num) (y : ndarray2 Z),
       _get_X_and_y self data true = Ok (X, y) /\
       shape2 X = (N, T * (D - 3)) /\
       rows2 X =
         map (fun w => concat (map (fun r => firstn (D - 3) (skipn 2 r)) w))
             (cells3 data) /\
       shape2 y = (N, T) /\
       (forall d : num,
          rows2 y = map (map (fun r => astype_int (last r d))) (cells3 data)) /\
       wf2 X /\ wf2 y) /\
    ((encode_len self <= Z.of_nat T)%Z -> 2 <= D ->
     exists (X : ndarray2 num) (ids : ndarray3 num),
       _get_X_and_y self data false = Ok (X, ids) /\
       shape2 X = (N, T * (D - 2)) /\
       rows2 X = map (fun w => concat (map (skipn 2) w)) (cells3 data) /\
       shape3 ids = (N, T, 2) /\
       cells3 ids = map (map (firstn 2)) (cells3 data) /\
       wf2 X /\ wf3 ids).
Proof.
  intros self data N T D Hshape Hwf HN.
  destruct (wf3_cells data N T D Hshape Hwf) as [Hlen Hcells].
  assert (HN0 : (N =? 0) = false) by (apply Nat.eqb_neq; lia).
  split.
  - intros HT HD.
    assert (Hlast : forall w, In w (cells3 data) ->
      Forall (fun r => length (firstn 1 (skipn (D - 1) r)) = 1) w).
    { intros w Hw. rewrite Forall_forall in Hcells.
      destruct (Hcells w Hw) as [_ Hr].
      eapply Forall_impl; [|exact Hr]. cbn beta. intros r Hlr.
      rewrite length_firstn, length_skipn. lia. }
    assert (Hy : forall d : num,
      map (map astype_int)
          (map (flat_map (fun r => firstn 1 (skipn (D - 1) r))) (cells3 data))
      = map (map (fun r => astype_int (last r d))) (cells3 data)).
    { intros d. rewrite map_map. apply map_ext_in. intros w Hw.
      rewrite Forall_forall in Hcells. destruct (Hcells w Hw) as [_ Hr].
      rewrite (flat_map_singleton _ (fun r => last r d)).
      - apply map_map.
      - eapply Forall_impl; [|exact Hr]. cbn beta. intros r Hlr.
        apply last_column. lia. }
    assert (HX : map (@concat num)
                   (map (map (py_slice 2 (Some (-1)%Z))) (cells3 data))
                 = map (fun w => concat
                          (map (fun r => firstn (D - 3) (skipn 2 r)) w))
                       (cells3 data)).
    { rewrite map_map. apply map_ext_in. intros w Hw. f_equal.
      rewrite Forall_forall in Hcells. destruct (Hcells w Hw) as [_ Hr].
      apply map_ext_in. intros r Hin. rewrite Forall_forall in Hr.
      rewrite py_slice_features_train, (Hr r Hin). reflexivity. }
    assert (Hj : Z.to_nat (if (-1 <? 0)%Z then -1 + Z.of_nat D else -1)%Z
                 = D - 1).
    { change (-1 <? 0)%Z with true. cbn iota. lia. }
    eexists. eexists. split.
    { unfold _get_X_and_y. rewrite Hshape.
      rewrite <- HT, Z.eqb_refl. cbn [negb].
      unfold slice_axis2, reshape_rows, index_axis2. rewrite Hshape.
      cbn [shape3 cells3]. rewrite HN0. cbn [bind].
      destruct ((-1 <? - Z.of_nat D)%Z || (Z.of_nat D <=? -1)%Z) eqn:E.
      { apply orb_true_iff in E. destruct E as [E|E].
        - apply Z.ltb_lt in E. lia.
        - apply Z.leb_le in E. lia. }
      cbn [bind]. rewrite Hj, HX, slice_len_train. reflexivity. }
    cbn [astype shape2 rows2].
    repeat split; try reflexivity; cbn [astype shape2 rows2].
    + exact Hy.
    + rewrite length_map. exact Hlen.
    + apply (wf2_flattened _ (D - 3) T _ (fun r => length r = D));
        [|exact Hcells].
      intros r Hr. rewrite length_firstn, length_skipn. lia.
    + rewrite !length_map. exact Hlen.
    + apply Forall_map. apply Forall_map. apply Forall_forall. intros w Hw.
      rewrite Forall_forall in Hcells. destruct (Hcells w Hw) as [HwT _].
      rewrite <- HwT. specialize (Hlast w Hw).
      rewrite length_map.
      clear - Hlast. induction Hlast as [|r w H1 _ IH]; [reflexivity|].
      cbn [flat_map length]. rewrite length_app, H1, IH. reflexivity.
  - intros HT HD.
    eexists. eexists. split.
    { unfold _get_X_and_y. rewrite Hshape.
      destruct (Z.ltb_spec (Z.of_nat T) (encode_len self)) as [E|_]; [lia|].
      unfold slice_axis2, reshape_rows. rewrite Hshape.
      cbn [shape3 cells3]. rewrite HN0. cbn [bind]. reflexivity. }
    cbn [shape2 rows2 shape3 cells3].
    rewrite slice_len_infer, slice_len_ids.
    replace (Nat.min 2 D) with 2 by lia.
    assert (HX : map (@concat num) (map (map (py_slice 2 None)) (cells3 data))
                 = map (fun w => concat (map (skipn 2) w)) (cells3 data)).
    { rewrite map_map. apply map_ext_in. intros w _. f_equal.
      apply map_ext. intros r. apply py_slice_features_infer. }
    assert (HI : map (map (py_slice 0 (Some 2%Z))) (cells3 data)
                 = map (map (firstn 2)) (cells3 data)).
    { apply map_ext. intros w. apply map_ext. intros r. apply py_slice_ids. }
    rewrite HX, HI.
    repeat split; try reflexivity; cbn [shape2 rows2 shape3 cells3].
    + rewrite length_map. exact Hlen.
    + apply (wf2_flattened _ (D - 2) T _ (fun r => length r = D));
        [|exact Hcells].
      intros r Hr. rewrite length_skipn. lia.
    + rewrite length_map. exact Hlen.
    + apply Forall_map. eapply Forall_impl; [|exact Hcells].
      cbn beta. intros w [Hw Hr]. split.
      * rewrite length_map. exact Hw.
      * apply Forall_map. eapply Forall_impl; [|exact Hr].
        cbn beta. intros r Hlr. rewrite length_firstn. lia.
Qed.

End ReshaperFacts.

Lemma wf3_train2 : wf3 train2.
Proof.
  unfold wf3. cbn. split; [reflexivity|]. repeat constructor.
Qed.

Lemma get_X_and_y_extracts_witness :
  (exists (X : ndarray2 Z) (y : ndarray2 Z),
     _get_X_and_y facade0 train2 true = Ok (X, y) /\
     shape2 X = (2, 2 * (4 - 3)) /\ shape2 y = (2, 2)) /\
  (exists (X : ndarray2 Z) (ids : ndarray3 Z),
     _get_X_and_y facade0 train2 false = Ok (X, ids) /\
     shape2 X = (2, 2 * (4 - 2)) /\ shape3 ids = (2, 2, 2)).
Proof.
  destruct (get_X_and_y_extracts facade0 train2 2 2 4 eq_refl wf3_train2
              (le_S 1 1 (le_n 1))) as [Htrain Hinfer].
  split.
  - destruct (Htrain eq_refl) as (X & y & H & HX & _ & Hy & _); [lia|].
    exists X, y. repeat split; assumption.
  - destruct Hinfer as (X & ids & H & HX & _ & Hi & _);
      [cbn; lia | lia |].
    exists X, ids. repeat split; assumption.
Defined.

(** C3, as stated, fails on a batch without windows: [reshape(0, -1)]
    raises, so the extraction returns nothing. *)
Lemma get_X_and_y_empty_batch_raises :
  shape3 empty_batch = (0, 2, 4) /\
  wf3 empty_batch /\
  Z.of_nat 2 = encode_len facade0 /\
  _get_X_and_y facade0 empty_batch true =
    Raise (ValueError
             "cannot reshape array of size 0 into shape (0,newaxis)") /\
  ~ (exists (X : ndarray2 Z) (y : ndarray2 Z),
       _get_X_and_y facade0 empty_batch true = Ok (X, y)).
Proof.
  repeat split.
  - constructor.
  - intros (X & y & H). discriminate H.
Qed.

(** ** Which exceptions the stages raise *)

Lemma ShapeMismatch_not_foreign (e : exn) :
  ShapeMismatch e -> foreign e = false.
Proof.
  intros (enc & T & [-> | ->]); reflexivity.
Qed.

Lemma safe_Ok {A : Type} (a : A) : safe (Ok a).
Proof. intros e H. discriminate H. Qed.

Lemma safe_Raise {A : Type} (e : exn) :
  foreign e = true -> safe (@Raise A e).
Proof. intros He e' H. injection H as <-. exact He. Qed.

Lemma safe_retype {A B : Type} (e : exn) :
  safe (@Raise A e) -> safe (@Raise B e).
Proof.
  intros H e' He'. injection He' as <-. apply H. reflexivity.
Qed.

Lemma safe_bind {A B : Type} (r : result A) (k : A -> result B) :
  safe r -> (forall a, r = Ok a -> safe (k a)) -> safe (bind r k).
Proof.
  intros Hr Hk. destruct r as [a|e]; cbn [bind].
  - apply Hk. reflexivity.
  - intros e' H. apply Hr. injection H as <-. reflexivity.
Qed.

Lemma foreign_sk_exn (cls msg : string) : foreign (sk_exn cls msg) = true.
Proof. unfold sk_exn. destruct (cls =? _)%string; reflexivity. Qed.

Lemma safe_lift {A : Type} (r : lib_result A) : safe (lift r).
Proof.
  destruct r; cbn [lift];
    [apply safe_Ok | apply safe_Raise; apply foreign_sk_exn].
Qed.

Lemma safe_getitem {A : Type} (l : list A) (i : nat) : safe (getitem l i).
Proof.
  unfold getitem. destruct (nth_error l i);
    [apply safe_Ok | apply safe_Raise; reflexivity].
Qed.

Lemma safe_setitem {A : Type} (i : nat) (v : A) (l : list A) :
  safe (setitem i v l).
Proof.
  revert i. induction l as [|h t IH]; intros i; cbn [setitem].
  - destruct i; apply safe_Raise; reflexivity.
  - destruct i as [|i]; [apply safe_Ok|].
    apply safe_bind; [apply IH | intros; apply safe_Ok].
Qed.

Lemma safe_traverse {A B : Type} (f : A -> result B) (l : list A) :
  (forall a, safe (f a)) -> safe (traverse f l).
Proof.
  intros Hf. induction l as [|a t IH]; cbn [traverse]; [apply safe_Ok|].
  apply safe_bind; [apply Hf | intros b _].
  apply safe_bind; [apply IH | intros; apply safe_Ok].
Qed.

Lemma safe_broadcast_axis {A : Type} (n : nat) (l : list A) :
  safe (broadcast_axis n l).
Proof.
  unfold broadcast_axis. destruct (length l =? n); [apply safe_Ok|].
  destruct l as [|x [|y l]];
    [apply safe_Raise | apply safe_Ok | apply safe_Raise]; reflexivity.
Qed.

Lemma safe_broadcast2 (N K : nat) (v : list (list R)) :
  safe (broadcast2 N K v).
Proof.
  unfold broadcast2. apply safe_bind.
  - apply safe_traverse. intros a. apply safe_broadcast_axis.
  - intros rows _. apply safe_broadcast_axis.
Qed.

Lemma safe_helper (K : nat) (x : decision) : safe (helper K x).
Proof.
  unfold helper. destruct (K =? 2).
  - destruct x; apply safe_Ok.
  - destruct x as [s|s]; cbn [softmax_helper].
    + apply safe_Raise. reflexivity.
    + unfold softmax. destruct (existsb is_nil s);
        [apply safe_Raise; reflexivity | apply safe_Ok].
Qed.

Lemma safe_reshape_rows {A : Type} (a : ndarray3 A) : safe (reshape_rows a).
Proof.
  unfold reshape_rows. destruct (shape3 a) as [[n t] d].
  destruct (n =? 0); [apply safe_Raise; reflexivity | apply safe_Ok].
Qed.

Lemma safe_vstack {num : Type} {Sc : Scalar num} (rows : list (list R)) :
  safe (vstack rows).
Proof.
  unfold vstack. destruct rows as [|r0 rows];
    [apply safe_Raise; reflexivity|].
  destruct (forallb _ _); [apply safe_Ok | apply safe_Raise; reflexivity].
Qed.

Section ErrorFacts.
Context {num : Type} {Sc : Scalar num} {cl : Classifier num}.

Lemma safe_dict_getitem {V : Type} (d : list (key * V)) (k : key) :
  safe (dict_getitem d k).
Proof.
  induction d as [|[k' v] t IH]; cbn [dict_getitem].
  - apply safe_Raise. reflexivity.
  - destruct (key_eqb k k'); [apply safe_Ok | exact IH].
Qed.

Lemma safe_sort_dict (d : list (key * list R)) : safe (sort_dict d).
Proof.
  unfold sort_dict. apply safe_traverse. intros k.
  apply safe_bind; [apply safe_dict_getitem | intros; apply safe_Ok].
Qed.

Lemma safe_inner_loop (window : list (list num)) (series_id : num)
  (steps : list (nat * list R)) (d : list (key * list (list R))) :
  safe (inner_loop window series_id steps d).
Proof.
  revert d. induction steps as [|[i step] rest IH]; intros d;
    cbn [inner_loop]; [apply safe_Ok|].
  apply safe_bind; [apply safe_getitem | intros row _].
  apply safe_bind; [apply safe_getitem | intros step_id _].
  apply IH.
Qed.

Lemma safe_outer_loop (window_ids : list (list (list num)))
  (ps : list (nat * list (list R))) (d : list (key * list (list R))) :
  safe (outer_loop window_ids ps d).
Proof.
  revert d. induction ps as [|[i p] rest IH]; intros d;
    cbn [outer_loop]; [apply safe_Ok|].
  apply safe_bind; [apply safe_getitem | intros w _].
  apply safe_bind; [apply safe_getitem | intros row0 _].
  apply safe_bind; [apply safe_getitem | intros sid _].
  apply safe_bind; [apply safe_inner_loop | intros d' _].
  apply IH.
Qed.

Lemma safe_fill_preds (N K : nat) (X : ndarray2 num)
  (ests : list (nat * estimator)) (preds : list (list (list R))) :
  safe (fill_preds N K X ests preds).
Proof.
  revert preds. induction ests as [|[i est] rest IH]; intros preds;
    cbn [fill_preds]; [apply safe_Ok|].
  apply safe_bind; [apply safe_lift | intros y _].
  apply safe_bind; [apply safe_helper | intros p _].
  apply safe_bind; [apply safe_broadcast2 | intros p' _].
  apply safe_bind; [apply safe_setitem | intros preds' _].
  apply IH.
Qed.

Lemma safe_compute_preds (self : TimeStepClassifier) (X : ndarray2 num)
  (window_ids : ndarray3 num) : safe (compute_preds self X window_ids).
Proof.
  unfold compute_preds. apply safe_bind.
  - unfold the_model. destruct (model self);
      [apply safe_Ok | apply safe_Raise; reflexivity].
  - intros m _. apply safe_bind; [apply safe_lift | intros ests _].
    apply safe_fill_preds.
Qed.

(** [_get_X_and_y] in each mode: the length error exactly when the guard
    fires, and no length error from what follows the guard. *)
Lemma get_X_and_y_train_guard (self : TimeStepClassifier)
  (data : ndarray3 num) :
  Z.of_nat (time_dim data) <> encode_len self ->
  _get_X_and_y self data true =
    Raise (ValueError (train_length_msg (encode_len self) (time_dim data))).
Proof.
  intros H. unfold _get_X_and_y, time_dim in *.
  destruct (shape3 data) as [[N T] D]. cbn [fst snd] in *.
  destruct (Z.eqb_spec (Z.of_nat T) (encode_len self)); [contradiction|].
  reflexivity.
Qed.

Lemma get_X_and_y_train_safe (self : TimeStepClassifier)
  (data : ndarray3 num) :
  Z.of_nat (time_dim data) = encode_len self ->
  safe (_get_X_and_y self data true).
Proof.
  intros H. unfold _get_X_and_y, time_dim in *.
  destruct (shape3 data) as [[N T] D] eqn:Hs. cbn [fst snd] in *.
  rewrite H, Z.eqb_refl. cbn [negb].
  apply safe_bind; [apply safe_reshape_rows | intros X _].
  apply safe_bind; [|intros; apply safe_Ok].
  unfold index_axis2. rewrite Hs.
  destruct (_ || _); [apply safe_Raise; reflexivity | apply safe_Ok].
Qed.

Lemma get_X_and_y_infer_guard (self : TimeStepClassifier)
  (data : ndarray3 num) :
  (Z.of_nat (time_dim data) < encode_len self)%Z ->
  _get_X_and_y self data false =
    Raise (ValueError (infer_length_msg (encode_len self) (time_dim data))).
Proof.
  intros H. unfold _get_X_and_y, time_dim in *.
  destruct (shape3 data) as [[N T] D]. cbn [fst snd] in *.
  destruct (Z.ltb_spec (Z.of_nat T) (encode_len self)); [reflexivity|lia].
Qed.

Lemma get_X_and_y_infer_safe (self : TimeStepClassifier)
  (data : ndarray3 num) :
  (encode_len self <= Z.of_nat (time_dim data))%Z ->
  safe (_get_X_and_y self data false).
Proof.
  intros H. unfold _get_X_and_y, time_dim in *.
  destruct (shape3 data) as [[N T] D] eqn:Hs. cbn [fst snd] in *.
  destruct (Z.ltb_spec (Z.of_nat T) (encode_len self)); [lia|].
  apply safe_bind; [apply safe_reshape_rows | intros; apply safe_Ok].
Qed.

Lemma predict_safe (self : TimeStepClassifier) (data : ndarray3 num) :
  (encode_len self <= Z.of_nat (time_dim data))%Z ->
  safe (predict self data).
Proof.
  intros H. unfold predict, predict_sorted_dict, predict_prob_dict.
  apply safe_bind; [|intros; apply safe_vstack].
  apply safe_bind; [|intros; apply safe_sort_dict].
  apply safe_bind; [apply get_X_and_y_infer_safe; exact H|].
  intros [X ids] _.
  apply safe_bind; [apply safe_compute_preds | intros preds _].
  apply safe_outer_loop.
Qed.

Lemma fit_safe (self : TimeStepClassifier) (data : ndarray3 num) :
  Z.of_nat (time_dim data) = encode_len self ->
  safe (snd (fit self data)).
Proof.
  intros H. unfold fit.
  pose proof (get_X_and_y_train_safe self data H) as Hs.
  destruct (_get_X_and_y self data true) as [[X y]|e];
    [|cbn [snd]; exact (safe_retype e Hs)].
  unfold the_model. destruct (model self) as [m|];
    [|apply safe_Raise; reflexivity].
  destruct (clf_fit m X y) as [m' [[cls msg]|]]; cbn [snd];
    [apply safe_Raise; apply foreign_sk_exn | apply safe_Ok].
Qed.

(** C4.  [fit] raises a length error (ShapeMismatch) if and only if the
    time dimension of the training tensor differs from [encode_len], and
    [predict] raises one if and only if the time dimension of the inference
    tensor is less than [encode_len].  In both cases the error is the first
    thing that happens: it carries the message that embeds [encode_len] and
    the length found, and [fit] leaves the facade as it was. *)
Theorem length_errors_iff :
  forall (self : TimeStepClassifier) (data : ndarray3 num),
    ((exists e, snd (fit self data) = Raise e /\ ShapeMismatch e) <->
     Z.of_nat (time_dim data) <> encode_len self) /\
    (Z.of_nat (time_dim data) <> encode_len self ->
     fit self data =
       (self, Raise (ValueError
                       (train_length_msg (encode_len self) (time_dim data))))) /\
    ((exists e, predict self data = Raise e /\ ShapeMismatch e) <->
     (Z.of_nat (time_dim data) < encode_len self)%Z) /\
    ((Z.of_nat (time_dim data) < encode_len self)%Z ->
     predict self data =
       Raise (ValueError
                (infer_length_msg (encode_len self) (time_dim data)))) /\
    (exists pre mid : string,
       train_length_msg (encode_len self) (time_dim data) =
         (pre ++ str_of_Z (encode_len self) ++ mid
              ++ str_of_nat (time_dim data))%string) /\
    (exists pre mid : string,
       infer_length_msg (encode_len self) (time_dim data) =
         (pre ++ str_of_Z (encode_len self) ++ mid
              ++ str_of_nat (time_dim data))%string).
Proof.
  intros self data.
  assert (Hfit : Z.of_nat (time_dim data) <> encode_len self ->
    fit self data =
      (self, Raise (ValueError
                      (train_length_msg (encode_len self) (time_dim data))))).
  { intros H. unfold fit. rewrite (get_X_and_y_train_guard self data H).
    reflexivity. }
  assert (Hpred : (Z.of_nat (time_dim data) < encode_len self)%Z ->
    predict self data =
      Raise (ValueError
               (infer_length_msg (encode_len self) (time_dim data)))).
  { intros H. unfold predict, predict_sorted_dict, predict_prob_dict.
    rewrite (get_X_and_y_infer_guard self data H). reflexivity. }
  repeat split.
  - intros (e & He & Hm) Heq.
    apply ShapeMismatch_not_foreign in Hm.
    rewrite (fit_safe self data Heq e He) in Hm. discriminate Hm.
  - intros H. eexists. rewrite (Hfit H). split; [reflexivity|].
    exists (encode_len self), (time_dim data). left. reflexivity.
  - exact Hfit.
  - intros (e & He & Hm).
    destruct (Z.lt_ge_cases (Z.of_nat (time_dim data)) (encode_len self))
      as [Hlt|Hge]; [exact Hlt|].
    apply ShapeMismatch_not_foreign in Hm.
    rewrite (predict_safe self data Hge e He) in Hm. discriminate Hm.
  - intros H. eexists. rewrite (Hpred H). split; [reflexivity|].
    exists (encode_len self), (time_dim data). right. reflexivity.
  - exact Hpred.
  - eexists. eexists. unfold train_length_msg. reflexivity.
  - eexists. eexists. unfold infer_length_msg. reflexivity.
Qed.

End ErrorFacts.

(** ** The probability decoders *)

Section DecoderFacts.
Local Open Scope R_scope.

(** C6.  With two target classes the helper maps every decision score [x]
    to the row [[1 - p; p]] where [p] is the logistic transform
    [1 / (1 + exp (-x))] of the score: column 1 is P(class=1), column 0 is
    its complement, and the result has one row of two entries per score.
    The score 0 decodes to [[1/2; 1/2]]. *)
Theorem binary_decode :
  forall s : list R,
    helper 2 (Scores1 s) =
      Ok (map (fun x => [1 - 1 / (1 + exp (- x)); 1 / (1 + exp (- x))]) s) /\
    (forall x, sigmoid x = 1 / (1 + exp (- x))) /\
    (forall rows, helper 2 (Scores1 s) = Ok rows ->
       length rows = length s /\
       Forall (fun r => exists p0 p1, r = [p0; p1] /\ p0 = 1 - p1) rows) /\
    helper 2 (Scores1 [0]) = Ok [[1 / 2; 1 / 2]].
Proof.
  intros s. split; [reflexivity|]. split; [reflexivity|]. split.
  - intros rows H. cbn in H. injection H as <-. split.
    + apply length_map.
    + apply Forall_map. apply Forall_forall. intros x _.
      exists (1 - sigmoid x), (sigmoid x). split; reflexivity.
  - cbn. unfold sigmoid. rewrite Ropp_0, exp_0.
    replace (1 - 1 / (1 + 1)) with (1 / 2) by lra.
    replace (1 / (1 + 1)) with (1 / 2) by lra. reflexivity.
Qed.

End DecoderFacts.

(** ** The life cycle of the facade *)

Section LifeCycle.
Context {num : Type} {Sc : Scalar num} {cl : Classifier num}.

Lemma init_untrained (schema : TimeStepClassificationSchema) (enc : Z)
  (pad : num) (c : R) (k : kwargs) :
  _is_trained (init schema enc pad c k) = false /\
  model (init schema enc pad c k) = Some (build_model c k).
Proof. split; reflexivity. Qed.

Lemma save_untrained (self : TimeStepClassifier) (dir : string) :
  _is_trained self = false ->
  save self dir = Raise (NotFittedError not_fitted_msg).
Proof. intros H. unfold save. rewrite H. reflexivity. Qed.

(** C9.  Whatever [fit] does, the trained flag is set exactly when the
    call returns: then the extraction succeeded and the classifier's own
    [fit] returned without raising.  When [fit] raises (in the extraction
    or in the classifier) the flag is what it was, so a facade that was
    untrained stays untrained and [save] still raises [NotFittedError]. *)
Theorem fit_sets_flag_on_success_only :
  forall (self self' : TimeStepClassifier) (data : ndarray3 num)
         (r : result clf),
    fit self data = (self', r) ->
    (forall m, r = Ok m ->
       _is_trained self' = true /\
       exists (m0 : clf) (X : ndarray2 num) (y : ndarray2 Z),
         model self = Some m0 /\
         _get_X_and_y self data true = Ok (X, y) /\
         clf_fit m0 X y = (m, None) /\
         model self' = Some m) /\
    (forall e, r = Raise e ->
       _is_trained self' = _is_trained self /\
       (_is_trained self = false ->
        forall dir, save self' dir = Raise (NotFittedError not_fitted_msg))).
Proof.
  intros self self' data r Hfit.
  assert (Hraise : forall e, r = Raise e -> _is_trained self' = _is_trained self).
  { intros e ->. unfold fit in Hfit.
    destruct (_get_X_and_y self data true) as [[X y]|e0].
    - unfold the_model in Hfit. destruct (model self) as [m0|].
      + destruct (clf_fit m0 X y) as [m' [[cls msg]|]];
          injection Hfit as <- Hr; [reflexivity | discriminate Hr].
      + injection Hfit as <- _. reflexivity.
    - injection Hfit as <- _. reflexivity. }
  split.
  - intros m ->. unfold fit in Hfit.
    destruct (_get_X_and_y self data true) as [[X y]|e0];
      [|injection Hfit as _ Hr; discriminate Hr].
    unfold the_model in Hfit. destruct (model self) as [m0|] eqn:Hm;
      [|injection Hfit as _ Hr; discriminate Hr].
    destruct (clf_fit m0 X y) as [m' [[cls msg]|]] eqn:Hc;
      injection Hfit as <- Hr; [discriminate Hr|].
    subst m'. split; [reflexivity|].
    exists m0, X, y. repeat split; try reflexivity. exact Hc.
  - intros e He. split; [exact (Hraise e He)|].
    intros Hu dir. apply save_untrained.
    rewrite (Hraise e He). exact Hu.
Qed.

End LifeCycle.

Lemma fit_sets_flag_on_success_only_witness :
  _is_trained (fst (fit facade0 infer2)) = false /\
  save (fst (fit facade0 infer2)) "model_dir" =
    Raise (NotFittedError not_fitted_msg) /\
  _is_trained (fst (fit facade0 train2)) = true.
Proof.
  pose proof (fit_sets_flag_on_success_only facade0 _ infer2 _ eq_refl)
    as [_ Hfail].
  pose proof (fit_sets_flag_on_success_only facade0 _ train2 _ eq_refl)
    as [Hok _].
  destruct (Hfail _ eq_refl) as [Hflag Hsave].
  destruct (Hok _ eq_refl) as [Htrained _].
  split; [exact Hflag|].
  split; [apply Hsave; reflexivity | exact Htrained].
Defined.

Section Untrained.
Context {num : Type} {Sc : Scalar num} {cl : Classifier num}.

(** C5 (as amended).  For every untrained facade [save] raises
    [NotFittedError].  [evaluate] first extracts: on a test tensor whose
    time dimension is not the encode length it raises the length error;
    on a tensor that passes the extraction it calls the classifier's
    [predict], and the [NotFittedError] that scikit-learn raises there for
    a classifier that was never fitted is the error of the call.  Nothing
    is caught or retried. *)
Theorem untrained_save_and_evaluate :
  forall (self : TimeStepClassifier) (data : ndarray3 num),
    _is_trained self = false ->
    (forall dir, save self dir = Raise (NotFittedError not_fitted_msg)) /\
    (Z.of_nat (time_dim data) <> encode_len self ->
     evaluate self data =
       Raise (ValueError
                (train_length_msg (encode_len self) (time_dim data)))) /\
    (forall (X : ndarray2 num) (y : ndarray2 Z) (m : clf) (msg : string),
       _get_X_and_y self data true = Ok (X, y) ->
       model self = Some m ->
       clf_predict m X = LibRaise "NotFittedError" msg ->
       evaluate self data = Raise (NotFittedError msg)).
Proof.
  intros self data Hu. split; [|split].
  - intros dir. apply save_untrained. exact Hu.
  - intros HT. unfold evaluate.
    rewrite (get_X_and_y_train_guard self data HT). reflexivity.
  - intros X y m msg Hx Hm Hp. unfold evaluate.
    rewrite Hx. cbn [bind]. rewrite Hm, Hp. reflexivity.
Qed.

End Untrained.

Lemma untrained_save_and_evaluate_witness :
  save facade0 "model_dir" = Raise (NotFittedError not_fitted_msg) /\
  evaluate facade0 train2 =
    Raise (NotFittedError "This instance is not fitted yet.").
Proof.
  destruct (untrained_save_and_evaluate facade0 train2 eq_refl)
    as (Hsave & _ & Heval).
  split; [apply Hsave|].
  eapply Heval; reflexivity.
Defined.

(** C5, as stated, fails on a test tensor of another length than the
    encode length: the untrained [facade0] raises the length error of the
    extraction, not [NotFittedError]. *)
Lemma evaluate_untrained_wrong_length :
  _is_trained facade0 = false /\
  Z.of_nat (time_dim long_test) <> encode_len facade0 /\
  evaluate facade0 long_test = Raise (ValueError (train_length_msg 2 3)) /\
  ~ (exists msg, evaluate facade0 long_test = Raise (NotFittedError msg)).
Proof.
  split; [reflexivity|]. split; [discriminate|]. split; [reflexivity|].
  intros (msg & H). discriminate H.
Qed.

(** ** Dictionaries and sorting *)

Lemma bind_Ok {A B : Type} (r : result A) (k : A -> result B) (b : B) :
  bind r k = Ok b -> exists a, r = Ok a /\ k a = Ok b.
Proof.
  destruct r as [a|e]; cbn [bind]; [|discriminate].
  intros H. exists a. split; [reflexivity | exact H].
Qed.

Section DictFacts.
Context {num : Type} {Sc : Scalar num}.

Lemma num_eqb_refl (x : num) : num_eqb x x = true.
Proof. apply num_eqb_eq. reflexivity. Qed.

Lemma key_eqb_eq (k1 k2 : key) : key_eqb k1 k2 = true <-> k1 = k2.
Proof.
  destruct k1 as [a1 b1], k2 as [a2 b2]. unfold key_eqb. cbn [fst snd].
  rewrite andb_true_iff, !num_eqb_eq. split.
  - intros [-> ->]. reflexivity.
  - intros H. injection H as -> ->. split; reflexivity.
Qed.

Lemma key_eqb_neq (k1 k2 : key) : key_eqb k1 k2 = false <-> k1 <> k2.
Proof.
  rewrite <- key_eqb_eq. destruct (key_eqb k1 k2); split;
    congruence.
Qed.

Lemma key_lt_irrefl (k : key) : ~ key_lt k k.
Proof.
  unfold key_lt, key_ltb. rewrite num_eqb_refl, num_ltb_irrefl.
  discriminate.
Qed.

Lemma key_lt_trans (a b c : key) : key_lt a b -> key_lt b c -> key_lt a c.
Proof.
  destruct a as [a1 a2], b as [b1 b2], c as [c1 c2].
  unfold key_lt, key_ltb. cbn [fst snd].
  destruct (num_eqb a1 b1) eqn:Eab.
  - apply num_eqb_eq in Eab. subst b1.
    destruct (num_eqb a1 c1) eqn:Eac; [|intros _ H; exact H].
    apply num_ltb_trans.
  - destruct (num_eqb b1 c1) eqn:Ebc.
    + apply num_eqb_eq in Ebc. subst c1. rewrite Eab. intros H _. exact H.
    + intros H1 H2. pose proof (num_ltb_trans _ _ _ H1 H2) as H.
      destruct (num_eqb a1 c1) eqn:Eac; [|exact H].
      apply num_eqb_eq in Eac. subst c1.
      rewrite num_ltb_irrefl in H. discriminate H.
Qed.

Lemma key_lt_total (a b : key) : key_lt a b \/ a = b \/ key_lt b a.
Proof.
  destruct a as [a1 a2], b as [b1 b2].
  unfold key_lt, key_ltb. cbn [fst snd].
  destruct (num_eqb a1 b1) eqn:Eab.
  - apply num_eqb_eq in Eab. subst b1. rewrite num_eqb_refl.
    destruct (num_ltb_total a2 b2) as [H|[H|H]]; [left; exact H | | right; right; exact H].
    right. left. subst. reflexivity.
  - assert (Eba : num_eqb b1 a1 = false).
    { destruct (num_eqb b1 a1) eqn:E; [|reflexivity].
      apply num_eqb_eq in E. subst b1. rewrite num_eqb_refl in Eab.
      discriminate Eab. }
    rewrite Eba.
    destruct (num_ltb_total a1 b1) as [H|[H|H]];
      [left; exact H | | right; right; exact H].
    subst b1. rewrite num_eqb_refl in Eab. discriminate Eab.
Qed.

Lemma dict_keys_set {V : Type} (d : list (key * V)) (k k' : key) (v : V) :
  In k' (dict_keys (dict_set d k v)) <-> k' = k \/ In k' (dict_keys d).
Proof.
  induction d as [|[k0 v0] t IH]; cbn [dict_set dict_keys map In fst].
  - intuition congruence.
  - destruct (key_eqb k k0) eqn:E; cbn [map In fst].
    + apply key_eqb_eq in E. subst k0. intuition congruence.
    + fold (dict_keys (dict_set t k v)). fold (dict_keys t).
      rewrite IH. intuition congruence.
Qed.

Lemma dict_set_NoDup {V : Type} (d : list (key * V)) (k : key) (v : V) :
  NoDup (dict_keys d) -> NoDup (dict_keys (dict_set d k v)).
Proof.
  induction d as [|[k0 v0] t IH]; cbn [dict_set dict_keys map fst];
    intros Hd.
  - constructor; [intros [] | constructor].
  - inversion Hd as [|? ? Hnin Ht]; subst.
    destruct (key_eqb k k0) eqn:E; cbn [map fst].
    + constructor; assumption.
    + constructor; [|exact (IH Ht)].
      fold (dict_keys (dict_set t k v)). rewrite dict_keys_set.
      intros [H|H]; [|exact (Hnin H)].
      subst k0. apply key_eqb_neq in E. apply E. reflexivity.
Qed.

Lemma dict_getitem_In {V : Type} (d : list (key * V)) (k : key) :
  In k (dict_keys d) -> exists v, dict_getitem d k = Ok v /\ In (k, v) d.
Proof.
  induction d as [|[k0 v0] t IH]; cbn [dict_keys map In fst dict_getitem];
    [intros []|].
  intros H. destruct (key_eqb k k0) eqn:E.
  - apply key_eqb_eq in E. subst k0. exists v0.
    split; [reflexivity | left; reflexivity].
  - destruct H as [H|H].
    + subst k0. apply key_eqb_neq in E. exfalso. apply E. reflexivity.
    + destruct (IH H) as (v & Hv & Hin). exists v.
      split; [exact Hv | right; exact Hin].
Qed.

Lemma insert_sorted_perm (k : key) (l : list key) :
  Permutation (insert_sorted k l) (k :: l).
Proof.
  induction l as [|h t IH]; cbn [insert_sorted]; [reflexivity|].
  destruct (key_ltb h k); [|reflexivity].
  rewrite IH. apply perm_swap.
Qed.

Lemma sorted_perm (l : list key) : Permutation (sorted l) l.
Proof.
  induction l as [|a l IH]; cbn [sorted fold_right]; [reflexivity|].
  fold (sorted l). rewrite insert_sorted_perm. constructor. exact IH.
Qed.

Lemma insert_sorted_strict (k : key) (l : list key) :
  StronglySorted key_lt l -> ~ In k l ->
  StronglySorted key_lt (insert_sorted k l).
Proof.
  induction 1 as [|h t Ht IH Hh]; intros Hk; cbn [insert_sorted].
  - constructor; constructor.
  - destruct (key_ltb h k) eqn:E.
    + constructor.
      * apply IH. intros H. apply Hk. right. exact H.
      * rewrite insert_sorted_perm. constructor; assumption.
    + assert (Hkh : key_lt k h).
      { destruct (key_lt_total k h) as [H|[H|H]]; [exact H | |].
        - exfalso. apply Hk. left. symmetry. exact H.
        - unfold key_lt in H. rewrite H in E. discriminate E. }
      constructor; [constructor; assumption|].
      constructor; [exact Hkh|].
      eapply Forall_impl; [|exact Hh]. cbn beta. intros x Hx.
      exact (key_lt_trans _ _ _ Hkh Hx).
Qed.

Lemma sorted_strict (l : list key) :
  NoDup l -> StronglySorted key_lt (sorted l).
Proof.
  induction 1 as [|a l Ha _ IH]; cbn [sorted fold_right]; [constructor|].
  fold (sorted l). apply insert_sorted_strict; [exact IH|].
  intros H. apply Ha. apply (Permutation_in _ (sorted_perm l)). exact H.
Qed.

Lemma traverse_lookup (d : list (key * list R)) (l : list key) :
  (forall k, In k l -> In k (dict_keys d)) ->
  exists sd,
    traverse (fun k => v <- dict_getitem d k ;; Ok (k, v)) l = Ok sd /\
    dict_keys sd = l /\ (forall kv, In kv sd -> In kv d).
Proof.
  induction l as [|k l IH]; intros Hl; cbn [traverse].
  - exists []. repeat split. intros kv [].
  - destruct (dict_getitem_In d k (Hl k (or_introl eq_refl)))
      as (v & Hv & Hin).
    destruct IH as (sd & Hsd & Hkeys & Hsub).
    { intros k' Hk'. apply Hl. right. exact Hk'. }
    exists ((k, v) :: sd). rewrite Hv. cbn [bind]. rewrite Hsd. cbn [bind].
    repeat split.
    + cbn [dict_keys map fst]. fold (dict_keys sd). rewrite Hkeys.
      reflexivity.
    + intros kv [<-|H]; [exact Hin | exact (Hsub kv H)].
Qed.

Lemma dict_keys_mean_unpadded (pad : num)
  (d : list (key * list (list R))) :
  dict_keys (mean_unpadded pad d) =
    filter (fun k => negb (num_eqb (snd k) pad)) (dict_keys d).
Proof.
  unfold mean_unpadded, dict_keys.
  induction d as [|[k v] t IH]; cbn [filter map fst snd]; [reflexivity|].
  destruct (negb (num_eqb (snd k) pad)); cbn [map fst]; rewrite IH;
    reflexivity.
Qed.

Lemma mean_unpadded_In (pad : num) (d : list (key * list (list R)))
  (k : key) (v : list R) :
  In (k, v) (mean_unpadded pad d) ->
  exists vs, In (k, vs) d /\ v = mean_axis0 vs.
Proof.
  unfold mean_unpadded. rewrite in_map_iff.
  intros ([k' vs] & Heq & Hin). apply filter_In in Hin.
  cbn [fst snd] in Heq. injection Heq as <- <-.
  exists vs. split; [apply Hin | reflexivity].
Qed.

(** [sort_dict] never raises on the dictionary of means: its keys are
    those of the dictionary in strictly ascending order, its entries are
    entries of the dictionary. *)
Lemma sort_dict_ok (d : list (key * list R)) :
  NoDup (dict_keys d) ->
  exists sd,
    sort_dict d = Ok sd /\
    dict_keys sd = sorted (dict_keys d) /\
    StronglySorted key_lt (dict_keys sd) /\
    NoDup (dict_keys sd) /\
    (forall kv, In kv sd -> In kv d).
Proof.
  intros Hd. unfold sort_dict.
  destruct (traverse_lookup d (sorted (dict_keys d))) as (sd & H & Hk & Hs).
  { intros k Hk. apply (Permutation_in _ (sorted_perm (dict_keys d))).
    exact Hk. }
  exists sd. rewrite Hk. repeat split; try assumption.
  - apply sorted_strict. exact Hd.
  - apply (Permutation_NoDup (Permutation_sym (sorted_perm (dict_keys d)))).
    exact Hd.
Qed.

Lemma inner_loop_NoDup (window : list (list num)) (series_id : num)
  (steps : list (nat * list R)) (d d' : list (key * list (list R))) :
  inner_loop window series_id steps d = Ok d' ->
  NoDup (dict_keys d) -> NoDup (dict_keys d').
Proof.
  revert d. induction steps as [|[i step] rest IH]; intros d;
    cbn [inner_loop].
  - intros H. injection H as <-. exact (fun H => H).
  - intros H Hd.
    apply bind_Ok in H. destruct H as (row & _ & H).
    apply bind_Ok in H. destruct H as (step_id & _ & H).
    apply (IH _ H). apply dict_set_NoDup. exact Hd.
Qed.

Lemma outer_loop_NoDup (window_ids : list (list (list num)))
  (ps : list (nat * list (list R))) (d d' : list (key * list (list R))) :
  outer_loop window_ids ps d = Ok d' ->
  NoDup (dict_keys d) -> NoDup (dict_keys d').
Proof.
  revert d. induction ps as [|[i p] rest IH]; intros d; cbn [outer_loop].
  - intros H. injection H as <-. exact (fun H => H).
  - intros H Hd.
    apply bind_Ok in H. destruct H as (w & _ & H).
    apply bind_Ok in H. destruct H as (row0 & _ & H).
    apply bind_Ok in H. destruct H as (sid & _ & H).
    apply bind_Ok in H. destruct H as (d1 & H1 & H).
    apply (IH _ H). exact (inner_loop_NoDup _ _ _ _ _ H1 Hd).
Qed.

Lemma accumulate_NoDup (preds : list (list (list R)))
  (window_ids : list (list (list num))) (d : list (key * list (list R))) :
  accumulate preds window_ids = Ok d -> NoDup (dict_keys d).
Proof.
  intros H. apply (outer_loop_NoDup _ _ _ _ H). constructor.
Qed.

End DictFacts.

(** ** Where the accumulation loop files a prediction *)

Lemma getitem_Ok {A : Type} (l : list A) (i : nat) (x : A) :
  getitem l i = Ok x -> nth_error l i = Some x.
Proof.
  unfold getitem. destruct (nth_error l i); [|discriminate].
  intros H. injection H as <-. reflexivity.
Qed.

Lemma In_enumerate_from {A : Type} (l : list A) (s i : nat) (x : A) :
  nth_error l i = Some x -> In (s + i, x) (combine (seq s (length l)) l).
Proof.
  revert s i. induction l as [|a l IH]; intros s i H.
  - destruct i; discriminate H.
  - cbn [length seq combine]. destruct i as [|i]; cbn [nth_error] in H.
    + injection H as <-. left. rewrite Nat.add_0_r. reflexivity.
    + right. rewrite <- Nat.add_succ_comm. apply IH. exact H.
Qed.

Lemma In_enumerate {A : Type} (l : list A) (i : nat) (x : A) :
  nth_error l i = Some x -> In (i, x) (enumerate l).
Proof. intros H. exact (In_enumerate_from l 0 i x H). Qed.

Section Routing.
Context {num : Type} {Sc : Scalar num}.

Lemma dict_get_set_same {V : Type} (d : list (key * V)) (k : key)
  (v dflt : V) : dict_get (dict_set d k v) k dflt = v.
Proof.
  induction d as [|[k0 v0] t IH]; cbn [dict_set dict_get].
  - replace (key_eqb k k) with true; [reflexivity|].
    symmetry. apply key_eqb_eq. reflexivity.
  - destruct (key_eqb k k0) eqn:E; cbn [dict_get]; rewrite E;
      [reflexivity | exact IH].
Qed.

Lemma dict_get_set_other {V : Type} (d : list (key * V)) (k k' : key)
  (v dflt : V) :
  k' <> k -> dict_get (dict_set d k v) k' dflt = dict_get d k' dflt.
Proof.
  intros Hne. induction d as [|[k0 v0] t IH]; cbn [dict_set dict_get].
  - apply key_eqb_neq in Hne. rewrite Hne. reflexivity.
  - destruct (key_eqb k k0) eqn:E; cbn [dict_get].
    + apply key_eqb_eq in E. subst k0.
      apply key_eqb_neq in Hne. rewrite Hne. reflexivity.
    + destruct (key_eqb k' k0); [reflexivity | exact IH].
Qed.

Lemma dict_append_keeps (d : list (key * list (list R))) (k k' : key)
  (step v : list R) :
  In v (dict_get d k' []) ->
  In v (dict_get (dict_set d k (dict_get d k [] ++ [step])) k' []).
Proof.
  intros H. destruct (key_eqb k' k) eqn:E.
  - apply key_eqb_eq in E. subst k'. rewrite dict_get_set_same.
    apply in_or_app. left. exact H.
  - apply key_eqb_neq in E. rewrite (dict_get_set_other _ _ _ _ _ E).
    exact H.
Qed.

Lemma inner_loop_files (window : list (list num)) (series_id : num)
  (steps : list (nat * list R)) (d d' : list (key * list (list R))) :
  inner_loop window series_id steps d = Ok d' ->
  (forall k v, In v (dict_get d k []) -> In v (dict_get d' k [])) /\
  (forall i step, In (i, step) steps ->
     exists row step_id,
       nth_error window i = Some row /\
       nth_error row 1 = Some step_id /\
       In step (dict_get d' (series_id, step_id) [])).
Proof.
  revert d. induction steps as [|[i0 step0] rest IH]; intros d;
    cbn [inner_loop].
  - intros H. injection H as <-. split; [auto | intros i step []].
  - intros H.
    apply bind_Ok in H. destruct H as (row & Hrow & H).
    apply bind_Ok in H. destruct H as (step_id & Hstep & H).
    destruct (IH _ H) as [Hmono Hfiles]. split.
    + intros k v Hv. apply Hmono. apply dict_append_keeps. exact Hv.
    + intros i step [Heq|Hin]; [|exact (Hfiles i step Hin)].
      injection Heq as <- <-. exists row, step_id.
      split; [exact (getitem_Ok _ _ _ Hrow)|].
      split; [exact (getitem_Ok _ _ _ Hstep)|].
      apply Hmono. rewrite dict_get_set_same.
      apply in_or_app. right. left. reflexivity.
Qed.

Lemma outer_loop_files (window_ids : list (list (list num)))
  (ps : list (nat * list (list R))) (d d' : list (key * list (list R))) :
  outer_loop window_ids ps d = Ok d' ->
  (forall k v, In v (dict_get d k []) -> In v (dict_get d' k [])) /\
  (forall index prediction step_index step,
     In (index, prediction) ps ->
     In (step_index, step) (enumerate prediction) ->
     exists window row0 series_id row step_id,
       nth_error window_ids index = Some window /\
       nth_error window 0 = Some row0 /\
       nth_error row0 0 = Some series_id /\
       nth_error window step_index = Some row /\
       nth_error row 1 = Some step_id /\
       In step (dict_get d' (series_id, step_id) [])).
Proof.
  revert d. induction ps as [|[i0 p0] rest IH]; intros d; cbn [outer_loop].
  - intros H. injection H as <-.
    split; [auto | intros index prediction step_index step []].
  - intros H.
    apply bind_Ok in H. destruct H as (w & Hw & H).
    apply bind_Ok in H. destruct H as (row0 & Hrow0 & H).
    apply bind_Ok in H. destruct H as (sid & Hsid & H).
    apply bind_Ok in H. destruct H as (d1 & Hinner & H).
    destruct (inner_loop_files _ _ _ _ _ Hinner) as [Hmono1 Hfiles1].
    destruct (IH _ H) as [Hmono Hfiles]. split.
    + intros k v Hv. apply Hmono. apply Hmono1. exact Hv.
    + intros index prediction step_index step [Heq|Hin] Hstep;
        [|exact (Hfiles _ _ _ _ Hin Hstep)].
      injection Heq as <- <-.
      destruct (Hfiles1 _ _ Hstep) as (row & step_id & Hr & Hs & Hv).
      exists w, row0, sid, row, step_id.
      repeat split;
        [exact (getitem_Ok _ _ _ Hw) | exact (getitem_Ok _ _ _ Hrow0)
        | exact (getitem_Ok _ _ _ Hsid) | exact Hr | exact Hs |].
      apply Hmono. exact Hv.
Qed.

(** Whenever the accumulation goes through, the prediction [preds[t][n]]
    is in the list of the key [(window_ids[t][0][0], window_ids[t][n][1])]:
    the first index of [preds] selects the window, the second the step. *)
Lemma accumulate_files_under (preds : list (list (list R)))
  (window_ids : list (list (list num))) (d : list (key * list (list R)))
  (t n : nat) (prediction : list (list R)) (step : list R) :
  accumulate preds window_ids = Ok d ->
  nth_error preds t = Some prediction ->
  nth_error prediction n = Some step ->
  exists window row0 series_id row step_id,
    nth_error window_ids t = Some window /\
    nth_error window 0 = Some row0 /\
    nth_error row0 0 = Some series_id /\
    nth_error window n = Some row /\
    nth_error row 1 = Some step_id /\
    In step (dict_get d (series_id, step_id) []).
Proof.
  intros H Ht Hn. unfold accumulate in H.
  destruct (outer_loop_files _ _ _ _ H) as [_ Hfiles].
  apply (Hfiles t prediction n step).
  - apply In_enumerate. exact Ht.
  - apply In_enumerate. exact Hn.
Qed.

End Routing.

(** ** The output of [predict] *)

Section PredictFacts.
Context {num : Type} {Sc : Scalar num} {cl : Classifier num}.

Lemma predict_prob_dict_NoDup (self : TimeStepClassifier)
  (data : ndarray3 num) (d : list (key * list (list R))) :
  predict_prob_dict self data = Ok d -> NoDup (dict_keys d).
Proof.
  unfold predict_prob_dict. intros H.
  apply bind_Ok in H. destruct H as ([X ids] & _ & H).
  apply bind_Ok in H. destruct H as (preds & _ & H).
  exact (accumulate_NoDup _ _ _ H).
Qed.

Lemma vstack_Ok (rows m : list (list R)) :
  vstack rows = Ok m -> m = rows /\ rows <> [].
Proof.
  unfold vstack. destruct rows as [|r0 rows]; [discriminate|].
  destruct (forallb _ _); [|discriminate].
  intros H. injection H as <-. split; [reflexivity | discriminate].
Qed.

(** C2.  Whenever [predict] returns a matrix, its rows are the values of
    [sorted_dict], one row per key: the keys are exactly the keys of the
    accumulated dictionary whose step-id is not the padding value, they are
    in strictly ascending tuple order, and no key occurs twice; the row of
    a key is the mean of the vectors accumulated under it. *)
Theorem predict_rows_sorted_distinct :
  forall (self : TimeStepClassifier) (data : ndarray3 num)
         (m : list (list R)),
    predict self data = Ok m ->
    exists (prob_dict : list (key * list (list R)))
           (sorted_dict : list (key * list R)),
      predict_prob_dict self data = Ok prob_dict /\
      predict_sorted_dict self data = Ok sorted_dict /\
      m = dict_values sorted_dict /\
      length m = length (dict_keys sorted_dict) /\
      (forall k, In k (dict_keys sorted_dict) <->
                 In k (dict_keys prob_dict) /\ snd k <> padding_value self) /\
      StronglySorted key_lt (dict_keys sorted_dict) /\
      NoDup (dict_keys sorted_dict) /\
      (forall k v, In (k, v) sorted_dict ->
         exists vs, In (k, vs) prob_dict /\ v = mean_axis0 vs).
Proof.
  intros self data m H. unfold predict in H.
  apply bind_Ok in H. destruct H as (sd & Hsd & Hv).
  apply vstack_Ok in Hv. destruct Hv as [-> _].
  pose proof Hsd as Hsd'. unfold predict_sorted_dict in Hsd'.
  apply bind_Ok in Hsd'. destruct Hsd' as (d & Hd & Hsort).
  pose proof (predict_prob_dict_NoDup self data d Hd) as Hnd.
  set (pad := padding_value self) in *.
  assert (Hnd' : NoDup (dict_keys (mean_unpadded pad d))).
  { rewrite dict_keys_mean_unpadded. apply NoDup_filter. exact Hnd. }
  destruct (sort_dict_ok (mean_unpadded pad d) Hnd')
    as (sd' & Hsd1 & Hkeys & Hsorted & Hnodup & Hsub).
  rewrite Hsort in Hsd1. injection Hsd1 as <-.
  exists d, sd. repeat split; try assumption.
  - unfold dict_values, dict_keys. rewrite !length_map. reflexivity.
  - rewrite Hkeys in H.
    apply (Permutation_in _ (sorted_perm _)) in H.
    rewrite dict_keys_mean_unpadded in H. apply filter_In in H. apply H.
  - rewrite Hkeys in H.
    apply (Permutation_in _ (sorted_perm _)) in H.
    rewrite dict_keys_mean_unpadded in H. apply filter_In in H.
    destruct H as [_ H]. intros Heq. rewrite Heq in H.
    unfold pad in H. rewrite num_eqb_refl in H. discriminate H.
  - intros [Hin Hne]. rewrite Hkeys.
    apply (Permutation_in _ (Permutation_sym (sorted_perm _))).
    rewrite dict_keys_mean_unpadded. apply filter_In.
    split; [exact Hin|].
    destruct (num_eqb (snd k) pad) eqn:E; [|reflexivity].
    apply num_eqb_eq in E. contradiction.
  - intros k v Hin. apply (mean_unpadded_In pad). apply Hsub. exact Hin.
Qed.

(** C10.  When every key of the accumulated dictionary has the padding
    value as step-id, [predict] raises: if the accumulation itself went
    through, nothing is left to stack and [np.vstack] raises its
    [ValueError]; no empty matrix is returned. *)
Theorem predict_all_padding_raises :
  forall (self : TimeStepClassifier) (data : ndarray3 num),
    (forall prob_dict, predict_prob_dict self data = Ok prob_dict ->
       Forall (fun k => snd k = padding_value self) (dict_keys prob_dict)) ->
    raises (predict self data) /\
    predict self data <> Ok [] /\
    (forall prob_dict, predict_prob_dict self data = Ok prob_dict ->
       predict self data =
         Raise (ValueError "need at least one array to concatenate")).
Proof.
  intros self data Hpad.
  assert (Hacc : forall prob_dict,
    predict_prob_dict self data = Ok prob_dict ->
    predict self data =
      Raise (ValueError "need at least one array to concatenate")).
  { intros d Hd. specialize (Hpad d Hd).
    unfold predict, predict_sorted_dict. rewrite Hd. cbn [bind].
    assert (Hnil : mean_unpadded (padding_value self) d = []).
    { unfold mean_unpadded.
      replace (filter _ d) with (@nil (@key num * list (list R)));
        [reflexivity|].
      symmetry. unfold dict_keys in Hpad. rewrite Forall_map in Hpad.
      clear Hd. induction Hpad as [|kv t Hkv _ IH]; [reflexivity|].
      cbn [filter]. unfold key in *. rewrite Hkv, num_eqb_refl.
      cbn [negb]. exact IH. }
    rewrite Hnil. reflexivity. }
  split; [|split; [|exact Hacc]].
  - destruct (predict_prob_dict self data) as [d|e] eqn:E.
    + exists (ValueError "need at least one array to concatenate").
      exact (Hacc d eq_refl).
    + exists e. unfold predict, predict_sorted_dict. rewrite E. reflexivity.
  - intros H. apply bind_Ok in H. destruct H as (sd & _ & H).
    apply vstack_Ok in H. destruct H as [H1 H2].
    apply H2. symmetry. exact H1.
Qed.

End PredictFacts.

(** ** The facade on concrete tensors *)

Lemma predict_infer2 :
  predict_sorted_dict facade1 infer2 =
    Ok [ ((1, 10)%Z, mean_axis0 [[1 - sigmoid 0; sigmoid 0]%R]);
         ((1, 11)%Z, mean_axis0 [[1 - sigmoid 0; sigmoid 0]%R]);
         ((2, 20)%Z, mean_axis0 [[1 - sigmoid 0; sigmoid 0]%R]);
         ((2, 21)%Z, mean_axis0 [[1 - sigmoid 0; sigmoid 0]%R]) ].
Proof. reflexivity. Qed.

Lemma predict_infer2_rows :
  predict facade1 infer2 =
    Ok (repeat (mean_axis0 [[1 - sigmoid 0; sigmoid 0]%R]) 4).
Proof. reflexivity. Qed.

Lemma predict_rows_sorted_distinct_witness :
  exists (m : list (list R)) (sorted_dict : list (key * list R)),
    predict facade1 infer2 = Ok m /\
    predict_sorted_dict facade1 infer2 = Ok sorted_dict /\
    m = dict_values sorted_dict /\
    dict_keys sorted_dict = [(1, 10); (1, 11); (2, 20); (2, 21)]%Z /\
    StronglySorted key_lt (dict_keys sorted_dict) /\
    NoDup (dict_keys sorted_dict).
Proof.
  eexists.
  destruct (predict_rows_sorted_distinct facade1 infer2 _
              predict_infer2_rows)
    as (d & sd & _ & Hsd & Hm & _ & _ & Hsorted & Hnodup & _).
  exists sd. split; [exact predict_infer2_rows|].
  split; [exact Hsd|]. split; [exact Hm|].
  split; [|split; assumption].
  rewrite predict_infer2 in Hsd. injection Hsd as <-. reflexivity.
Defined.

Lemma predict_prob_dict_padded2 :
  predict_prob_dict facade1 padded2 =
    Ok [ ((1, -1)%Z, [[1 - sigmoid 0; sigmoid 0]%R;
                      [1 - sigmoid 0; sigmoid 0]%R]);
         ((2, -1)%Z, [[1 - sigmoid 0; sigmoid 0]%R;
                      [1 - sigmoid 0; sigmoid 0]%R]) ].
Proof. reflexivity. Qed.

Lemma predict_all_padding_raises_witness :
  padding_value facade1 = (-1)%Z /\
  predict facade1 padded2 =
    Raise (ValueError "need at least one array to concatenate").
Proof.
  split; [reflexivity|].
  refine (proj2 (proj2 (predict_all_padding_raises facade1 padded2 _))
            _ predict_prob_dict_padded2).
  intros d Hd. rewrite predict_prob_dict_padded2 in Hd. injection Hd as <-.
  repeat constructor.
Defined.

(** C1 at its failing input.  [preds2] holds [preds[t][n]] for two
    step-outputs and two windows, [ids2] the identifiers of the two
    windows.  The loop files [preds[0][1]], the first step of window 1,
    under the key (1, 11) of the second step of window 0, and
    [preds[1][0]], the second step of window 0, under the key (2, 20) of
    the first step of window 1: the two indices of [window_ids] are
    exchanged. *)
Theorem accumulate_exchanges_indices :
  accumulate preds2 ids2 =
    Ok [ ((1, 10)%Z, [p00]); ((1, 11)%Z, [p01]);
         ((2, 20)%Z, [p10]); ((2, 21)%Z, [p11]) ] /\
  (nth_error preds2 0 = Some [p00; p01] /\
   nth_error preds2 1 = Some [p10; p11]) /\
  (nth_error ids2 0 = Some [[1; 10]; [1; 11]]%Z /\
   nth_error ids2 1 = Some [[2; 20]; [2; 21]]%Z) /\
  p01 <> p10.
Proof.
  repeat split.
  unfold p01, p10. intros H. injection H as H _. lra.
Qed.

(** One window and at least two step-outputs: the second turn of the
    outer loop indexes [window_ids] with the step-output index and
    raises. *)
Lemma accumulate_single_window {num : Type} {Sc : Scalar num}
  (sid step0 : num) (row0 : list num) (w : list (list num))
  (q0 q1 : list R) (rest : list (list (list R))) :
  accumulate ([q0] :: [q1] :: rest) [(sid :: step0 :: row0) :: w] =
    Raise (IndexError "index is out of bounds").
Proof. reflexivity. Qed.

(** One window and one step-output: the mean over the singleton list is
    the decoded vector itself. *)
Lemma map_nth_all {A B : Type} (f : A -> B) (d : A) (q : list A) :
  map (fun j => f (nth j q d)) (seq 0 (length q)) = map f q.
Proof.
  induction q as [|a q IH]; [reflexivity|].
  cbn [length seq map nth]. f_equal.
  rewrite <- seq_shift, map_map. exact IH.
Qed.

Lemma mean_axis0_singleton (q : list R) : mean_axis0 [q] = q.
Proof.
  unfold mean_axis0. cbn [hd length map INR row_sum fold_right].
  rewrite <- (map_id q) at 2.
  rewrite <- (map_nth_all (fun v => v) 0%R q).
  apply map_ext. intros j. lra.
Qed.

(** C8 at its failing input.  On one window of two steps [predict] raises
    the [IndexError] of the second turn of the outer loop, which looks for
    a window at the index of the second step-output. *)
Theorem predict_single_window_raises :
  shape3 single_window = (1, 2, 3) /\
  wf3 single_window /\
  (encode_len facade1 <= Z.of_nat (time_dim single_window))%Z /\
  _is_trained facade1 = true /\
  predict facade1 single_window =
    Raise (IndexError "index is out of bounds").
Proof.
  repeat split.
  - repeat constructor.
  - change (2 <= 2)%Z. lia.
Qed.

(** * Further properties *)

(** ** The shape of [preds] *)

Lemma traverse_Forall {A B : Type} (f : A -> result B) (P : B -> Prop)
  (l : list A) (l' : list B) :
  (forall a b, f a = Ok b -> P b) ->
  traverse f l = Ok l' -> Forall P l' /\ length l' = length l.
Proof.
  intros Hf. revert l'. induction l as [|a t IH]; intros l' H;
    cbn [traverse] in H.
  - injection H as <-. split; [constructor | reflexivity].
  - apply bind_Ok in H. destruct H as (b & Hb & H).
    apply bind_Ok in H. destruct H as (t' & Ht & H).
    injection H as <-. destruct (IH t' Ht) as [HP Hlen]. split.
    + constructor; [exact (Hf a b Hb) | exact HP].
    + cbn [length]. rewrite Hlen. reflexivity.
Qed.

Lemma broadcast_axis_Ok {A : Type} (n : nat) (l l' : list A) :
  broadcast_axis n l = Ok l' ->
  length l' = n /\ (forall x, In x l' -> In x l).
Proof.
  unfold broadcast_axis. destruct (Nat.eqb_spec (length l) n) as [E|E].
  - intros H. injection H as <-. split; [exact E | auto].
  - destruct l as [|x [|y l]]; try discriminate.
    intros H. injection H as <-. split; [apply repeat_length|].
    intros z Hz. apply repeat_spec in Hz. subst z. left. reflexivity.
Qed.

Lemma broadcast2_shape (N K : nat) (v v' : list (list R)) :
  broadcast2 N K v = Ok v' ->
  length v' = N /\ Forall (fun r => length r = K) v'.
Proof.
  unfold broadcast2. intros H.
  apply bind_Ok in H. destruct H as (rows & Hrows & H).
  destruct (traverse_Forall (broadcast_axis K) (fun r => length r = K)
              v rows) as [HK _]; [|exact Hrows|].
  { intros a b Hab. apply (broadcast_axis_Ok K a b Hab). }
  destruct (broadcast_axis_Ok N rows v' H) as [Hlen Hin].
  split; [exact Hlen|].
  apply Forall_forall. intros r Hr. rewrite Forall_forall in HK.
  apply HK. apply Hin. exact Hr.
Qed.

Lemma setitem_Ok {A : Type} (i : nat) (v : A) (l l' : list A) :
  setitem i v l = Ok l' ->
  length l' = length l /\ i < length l /\ nth_error l' i = Some v /\
  (forall j, j <> i -> nth_error l' j = nth_error l j) /\
  (forall P : A -> Prop, Forall P l -> P v -> Forall P l').
Proof.
  revert i l'. induction l as [|h t IH]; intros i l' H; cbn [setitem] in H.
  - destruct i; discriminate H.
  - destruct i as [|i].
    + injection H as <-. cbn [length nth_error].
      repeat split; try lia.
      * intros [|j] Hj; [contradiction | reflexivity].
      * intros P HP Hv. inversion HP; subst. constructor; assumption.
    + apply bind_Ok in H. destruct H as (t' & Ht & H). injection H as <-.
      destruct (IH i t' Ht) as (Hlen & Hi & Hnth & Hother & HP).
      cbn [length nth_error]. repeat split; try lia.
      * exact Hnth.
      * intros [|j] Hj; [reflexivity|]. apply Hother. lia.
      * intros P HPl Hv. inversion HPl; subst.
        constructor; [assumption | apply HP; assumption].
Qed.

Lemma zeros_shape (T N K : nat) : preds_shape T N K (zeros T N K).
Proof.
  unfold preds_shape, zeros. split; [apply repeat_length|].
  apply Forall_forall. intros p Hp. apply repeat_spec in Hp. subst p.
  split; [apply repeat_length|].
  apply Forall_forall. intros r Hr. apply repeat_spec in Hr. subst r.
  apply repeat_length.
Qed.

Lemma In_enumerate_lt {A : Type} (l : list A) (i : nat) (x : A) :
  In (i, x) (enumerate l) -> i < length l.
Proof.
  unfold enumerate. intros H. apply in_combine_l in H.
  apply in_seq in H. lia.
Qed.

Section PredsShape.
Context {num : Type} {Sc : Scalar num} {cl : Classifier num}.

Lemma fill_preds_shape (T N K : nat) (X : ndarray2 num)
  (ests : list (nat * estimator)) (preds preds' : list (list (list R))) :
  preds_shape T N K preds ->
  fill_preds N K X ests preds = Ok preds' ->
  preds_shape T N K preds'.
Proof.
  revert preds. induction ests as [|[i est] rest IH]; intros preds Hs H;
    cbn [fill_preds] in H.
  - injection H as <-. exact Hs.
  - apply bind_Ok in H. destruct H as (y & _ & H).
    apply bind_Ok in H. destruct H as (p & _ & H).
    apply bind_Ok in H. destruct H as (p' & Hp' & H).
    apply bind_Ok in H. destruct H as (preds1 & Hset & H).
    apply (IH preds1); [|exact H].
    destruct Hs as [Hlen Hall].
    destruct (setitem_Ok i p' preds preds1 Hset) as (Hl & _ & _ & _ & HP).
    split; [rewrite Hl; exact Hlen|].
    apply HP; [exact Hall|]. apply (broadcast2_shape N K p p' Hp').
Qed.

Lemma fill_preds_untouched (N K : nat) (X : ndarray2 num)
  (ests : list (nat * estimator)) (preds preds' : list (list (list R)))
  (t : nat) :
  (forall i est, In (i, est) ests -> i <> t) ->
  fill_preds N K X ests preds = Ok preds' ->
  nth_error preds' t = nth_error preds t.
Proof.
  revert preds. induction ests as [|[i est] rest IH]; intros preds Hne H;
    cbn [fill_preds] in H.
  - injection H as <-. reflexivity.
  - apply bind_Ok in H. destruct H as (y & _ & H).
    apply bind_Ok in H. destruct H as (p & _ & H).
    apply bind_Ok in H. destruct H as (p' & _ & H).
    apply bind_Ok in H. destruct H as (preds1 & Hset & H).
    rewrite (IH preds1); [| |exact H].
    + destruct (setitem_Ok i p' preds preds1 Hset) as (_ & _ & _ & Ho & _).
      apply Ho. intros ->. apply (Hne i est); [left|]; reflexivity.
    + intros j e Hj. apply (Hne j e). right. exact Hj.
Qed.

Lemma compute_preds_shape_aux (self : TimeStepClassifier)
  (X : ndarray2 num) (window_ids : ndarray3 num)
  (preds : list (list (list R))) :
  compute_preds self X window_ids = Ok preds ->
  preds_shape (time_dim window_ids) (fst (shape2 X))
              (length (target_classes (data_schema self))) preds.
Proof.
  intros H. unfold compute_preds in H.
  apply bind_Ok in H. destruct H as (m & _ & H).
  apply bind_Ok in H. destruct H as (ests & _ & H).
  eapply fill_preds_shape; [|exact H]. apply zeros_shape.
Qed.

(** Whenever [predict] gets as far as [preds], the array has the shape
    (T, N, K) it was allocated with: T is the time dimension of the
    window identifiers, N the number of rows of X and K the number of
    target classes, whatever the estimators returned. *)
Theorem compute_preds_shape :
  forall (self : TimeStepClassifier) (X : ndarray2 num)
         (window_ids : ndarray3 num) (preds : list (list (list R))),
    compute_preds self X window_ids = Ok preds ->
    preds_shape (time_dim window_ids) (fst (shape2 X))
                (length (target_classes (data_schema self))) preds.
Proof.
  intros self X ids preds H. exact (compute_preds_shape_aux self X ids preds H).
Qed.

Lemma compute_preds_zero_block :
  forall (self : TimeStepClassifier) (X : ndarray2 num)
         (window_ids : ndarray3 num) (preds : list (list (list R)))
         (m : clf) (ests : list estimator) (t : nat),
    compute_preds self X window_ids = Ok preds ->
    model self = Some m ->
    estimators_ m = LibOk ests ->
    length ests <= t < time_dim window_ids ->
    nth_error preds t =
      Some (repeat (repeat 0%R (length (target_classes (data_schema self))))
                   (fst (shape2 X))).
Proof.
  intros self X ids preds m ests t H Hm He Ht. unfold compute_preds in H.
  unfold the_model in H. rewrite Hm in H. cbn [bind] in H.
  rewrite He in H. cbn [lift bind] in H.
  rewrite (fill_preds_untouched _ _ _ _ _ _ t) with (2 := H).
  - unfold zeros. apply nth_error_repeat. unfold time_dim in Ht. lia.
  - intros i est Hin ->. apply In_enumerate_lt in Hin. lia.
Qed.

End PredsShape.

(** ** What the accumulation keeps *)

Lemma length_enumerate {A : Type} (l : list A) :
  length (enumerate l) = length l.
Proof.
  unfold enumerate. rewrite length_combine, length_seq. apply Nat.min_id.
Qed.

Lemma In_enumerate_value {A : Type} (l : list A) (i : nat) (x : A) :
  In (i, x) (enumerate l) -> In x l.
Proof. unfold enumerate. apply in_combine_r. Qed.

Lemma map_snd_combine_seq {A : Type} (l : list A) (s : nat) :
  map snd (combine (seq s (length l)) l) = l.
Proof.
  revert s. induction l as [|a l IH]; intros s; [reflexivity|].
  cbn [length seq combine map snd]. rewrite IH. reflexivity.
Qed.

Lemma list_sum_cons (a : nat) (l : list nat) :
  list_sum (a :: l) = a + list_sum l.
Proof. reflexivity. Qed.

Section Conservation.
Context {num : Type} {Sc : Scalar num}.

Lemma dict_total_append (d : list (key * list (list R))) (k : key)
  (step : list R) :
  dict_total (dict_set d k (dict_get d k [] ++ [step])) = S (dict_total d).
Proof.
  unfold dict_total.
  induction d as [|[k0 v0] t IH]; cbn [dict_set dict_get]; [reflexivity|].
  destruct (key_eqb k k0); cbn [map snd]; rewrite !list_sum_cons.
  - rewrite length_app. cbn [length]. lia.
  - rewrite IH. lia.
Qed.

Lemma dict_set_values {V : Type} (Q : V -> Prop) (d : list (key * V))
  (k : key) (v : V) :
  Forall (fun kv => Q (snd kv)) d -> Q v ->
  Forall (fun kv => Q (snd kv)) (dict_set d k v).
Proof.
  intros Hd Hv. induction Hd as [|[k0 v0] t H0 Ht IH]; cbn [dict_set].
  - constructor; [exact Hv | constructor].
  - destruct (key_eqb k k0); constructor; assumption.
Qed.

Lemma dict_get_values {V : Type} (Q : V -> Prop) (d : list (key * V))
  (k : key) (dflt : V) :
  Forall (fun kv => Q (snd kv)) d -> Q dflt -> Q (dict_get d k dflt).
Proof.
  intros Hd Hdflt. induction Hd as [|[k0 v0] t H0 _ IH]; cbn [dict_get].
  - exact Hdflt.
  - destruct (key_eqb k k0); [exact H0 | exact IH].
Qed.

Lemma inner_loop_keeps (P : list R -> Prop) (window : list (list num))
  (series_id : num) (steps : list (nat * list R))
  (d d' : list (key * list (list R))) :
  inner_loop window series_id steps d = Ok d' ->
  (forall i step, In (i, step) steps -> P step) ->
  Forall (fun kv => Forall P (snd kv)) d ->
  Forall (fun kv => snd kv <> []) d ->
  Forall (fun kv => Forall P (snd kv)) d' /\
  Forall (fun kv => snd kv <> []) d' /\
  dict_total d' = dict_total d + length steps.
Proof.
  revert d. induction steps as [|[i step] rest IH]; intros d H HP Hd Hne;
    cbn [inner_loop] in H.
  - injection H as <-. cbn [length]. repeat split; try assumption. lia.
  - apply bind_Ok in H. destruct H as (row & _ & H).
    apply bind_Ok in H. destruct H as (step_id & _ & H).
    destruct (IH _ H) as (H1 & H2 & H3).
    + intros j s Hj. apply (HP j s). right. exact Hj.
    + apply (dict_set_values (fun vs => Forall P vs)); [exact Hd|].
      apply Forall_app. split.
      * apply (dict_get_values (fun vs => Forall P vs)); [exact Hd|].
        constructor.
      * constructor; [|constructor]. apply (HP i step). left. reflexivity.
    + apply (dict_set_values (fun vs => vs <> [])); [exact Hne|].
      intros E. apply app_eq_nil in E. destruct E as [_ E]. discriminate E.
    + repeat split; try assumption.
      rewrite H3, dict_total_append. cbn [length]. lia.
Qed.

Lemma outer_loop_keeps (P : list R -> Prop)
  (window_ids : list (list (list num)))
  (ps : list (nat * list (list R))) (d d' : list (key * list (list R))) :
  outer_loop window_ids ps d = Ok d' ->
  (forall i prediction step,
     In (i, prediction) ps -> In step prediction -> P step) ->
  Forall (fun kv => Forall P (snd kv)) d ->
  Forall (fun kv => snd kv <> []) d ->
  Forall (fun kv => Forall P (snd kv)) d' /\
  Forall (fun kv => snd kv <> []) d' /\
  dict_total d' = dict_total d + list_sum (map (fun ip => length (snd ip)) ps).
Proof.
  revert d. induction ps as [|[i p] rest IH]; intros d H HP Hd Hne;
    cbn [outer_loop] in H.
  - injection H as <-. cbn [map]. repeat split; try assumption.
    cbn. lia.
  - apply bind_Ok in H. destruct H as (w & _ & H).
    apply bind_Ok in H. destruct H as (row0 & _ & H).
    apply bind_Ok in H. destruct H as (sid & _ & H).
    apply bind_Ok in H. destruct H as (d1 & Hinner & H).
    destruct (inner_loop_keeps P _ _ _ _ _ Hinner) as (H1 & H2 & H3);
      [|exact Hd|exact Hne|].
    { intros j s Hj. apply (HP i p s); [left; reflexivity|].
      exact (In_enumerate_value _ _ _ Hj). }
    destruct (IH _ H) as (H4 & H5 & H6); [|exact H1|exact H2|].
    { intros j q s Hj Hs. apply (HP j q s); [right; exact Hj | exact Hs]. }
    repeat split; try assumption.
    rewrite H6, H3, length_enumerate. cbn [map snd].
    rewrite list_sum_cons. lia.
Qed.

(** The accumulation neither drops nor invents a prediction: when the loop
    goes through, the lists of the dictionary hold as many vectors as
    [preds] has, every vector of a list is a vector of [preds], and no key
    has an empty list, so that no mean is taken over nothing. *)
Theorem accumulate_conserves :
  forall (preds : list (list (list R)))
         (window_ids : list (list (list num)))
         (d : list (key * list (list R))),
    accumulate preds window_ids = Ok d ->
    dict_total d = list_sum (map (@length (list R)) preds) /\
    Forall (fun kv => snd kv <> []) d /\
    (forall k vs v, In (k, vs) d -> In v vs ->
       exists prediction, In prediction preds /\ In v prediction).
Proof.
  intros preds ids d H. unfold accumulate in H.
  destruct (outer_loop_keeps
              (fun v => exists prediction,
                          In prediction preds /\ In v prediction)
              _ _ _ _ H) as (H1 & H2 & H3).
  - intros i p s Hi Hs. exists p. split; [|exact Hs].
    exact (In_enumerate_value _ _ _ Hi).
  - constructor.
  - constructor.
  - split; [|split; [exact H2|]].
    + rewrite H3. unfold dict_total at 1. cbn [map].
      unfold enumerate.
      rewrite <- (map_map snd (@length (list R))), map_snd_combine_seq.
      reflexivity.
    + intros k vs v Hin Hv. rewrite Forall_forall in H1.
      specialize (H1 (k, vs) Hin). cbn [snd] in H1.
      rewrite Forall_forall in H1. exact (H1 v Hv).
Qed.

End Conservation.

(** ** What [predict] accepts and returns *)

Section PredictShape.
Context {num : Type} {Sc : Scalar num} {cl : Classifier num}.

Lemma dict_getitem_Ok_In {V : Type} (d : list (key * V)) (k : key) (v : V) :
  dict_getitem d k = Ok v -> In (k, v) d.
Proof.
  induction d as [|[k0 v0] t IH]; cbn [dict_getitem]; [discriminate|].
  destruct (key_eqb k k0) eqn:E.
  - intros H. injection H as <-. apply key_eqb_eq in E. subst k0.
    left. reflexivity.
  - intros H. right. exact (IH H).
Qed.

Lemma sort_dict_Ok_sub (d sd : list (key * list R)) :
  sort_dict d = Ok sd -> forall kv, In kv sd -> In kv d.
Proof.
  unfold sort_dict. intros H.
  assert (Hf : forall (k : key) (kv : key * list R),
            (v <- dict_getitem d k ;; Ok (k, v)) = Ok kv -> In kv d).
  { intros k kv Hk. apply bind_Ok in Hk. destruct Hk as (v & Hv & Hk).
    injection Hk as <-. apply dict_getitem_Ok_In. exact Hv. }
  destruct (traverse_Forall _ (fun kv => In kv d) _ _ Hf H) as [HF _].
  rewrite Forall_forall in HF. exact HF.
Qed.

Lemma predict_Ok_inv (self : TimeStepClassifier) (data : ndarray3 num)
  (m : list (list R)) :
  predict self data = Ok m ->
  exists (X : ndarray2 num) (ids : ndarray3 num)
         (preds : list (list (list R)))
         (d : list (key * list (list R))) (sd : list (key * list R)),
    _get_X_and_y self data false = Ok (X, ids) /\
    compute_preds self X ids = Ok preds /\
    accumulate preds (cells3 ids) = Ok d /\
    sort_dict (mean_unpadded (padding_value self) d) = Ok sd /\
    m = dict_values sd /\ m <> [].
Proof.
  unfold predict, predict_sorted_dict, predict_prob_dict. intros H.
  apply bind_Ok in H. destruct H as (sd & H & Hv).
  apply bind_Ok in H. destruct H as (d & H & Hsd).
  apply bind_Ok in H. destruct H as ([X ids] & Hx & H).
  apply bind_Ok in H. destruct H as (preds & Hp & Hacc).
  apply vstack_Ok in Hv. destruct Hv as [-> Hne].
  exists X, ids, preds, d, sd. repeat split; assumption.
Qed.

Lemma get_X_and_y_infer_Ok (self : TimeStepClassifier)
  (data : ndarray3 num) (X : ndarray2 num) (ids : ndarray3 num)
  (N T D : nat) :
  shape3 data = (N, T, D) ->
  _get_X_and_y self data false = Ok (X, ids) ->
  N <> 0 /\ (encode_len self <= Z.of_nat T)%Z /\
  fst (shape2 X) = N /\ time_dim ids = T /\
  cells3 ids = map (map (firstn 2)) (cells3 data).
Proof.
  intros Hs H. unfold _get_X_and_y in H. rewrite Hs in H.
  destruct (Z.ltb_spec (Z.of_nat T) (encode_len self)) as [|Hge];
    [discriminate|].
  unfold reshape_rows, slice_axis2 in H. rewrite Hs in H.
  cbn [shape3 cells3] in H.
  destruct (Nat.eqb_spec N 0) as [|HN]; [discriminate|].
  cbn [bind] in H. injection H as <- <-.
  cbn [shape2 fst]. unfold time_dim. cbn [shape3 cells3 fst snd].
  repeat split; try assumption; try reflexivity.
  apply map_ext. intros w. apply map_ext. intros r. apply py_slice_ids.
Qed.

(** The loop of a call of [predict] that returned: there is at least one
    step-output and one window, and for every step-output [t] and window
    [n] the loop found [window_ids[t][0][0]] and [window_ids[t][n][1]]. *)
Lemma predict_Ok_loop (self : TimeStepClassifier) (data : ndarray3 num)
  (m : list (list R)) (N T D : nat) :
  shape3 data = (N, T, D) ->
  predict self data = Ok m ->
  1 <= T /\ 1 <= N /\
  forall t n, t < T -> n < N ->
    exists window row0 series_id row step_id,
      nth_error (map (map (firstn 2)) (cells3 data)) t = Some window /\
      nth_error window 0 = Some row0 /\
      nth_error row0 0 = Some series_id /\
      nth_error window n = Some row /\
      nth_error row 1 = Some (step_id : num).
Proof.
  intros Hs H.
  destruct (predict_Ok_inv self data m H)
    as (X & ids & preds & d & sd & Hx & Hp & Hacc & Hsd & -> & Hne).
  destruct (get_X_and_y_infer_Ok self data X ids N T D Hs Hx)
    as (HN & _ & HXN & HT & Hcells).
  pose proof (compute_preds_shape_aux self X ids preds Hp) as [Hlen Hall].
  rewrite HT in Hlen. rewrite HXN in Hall. rewrite Hcells in Hacc.
  assert (HT1 : 1 <= T).
  { destruct sd as [|[k v] sd]; [contradiction Hne; reflexivity|].
    pose proof (sort_dict_Ok_sub _ _ Hsd (k, v) (or_introl eq_refl)) as Hin.
    apply mean_unpadded_In in Hin. destruct Hin as (vs & Hin & _).
    unfold accumulate in Hacc.
    destruct (outer_loop_keeps
                (fun v => exists prediction,
                            In prediction preds /\ In v prediction)
                _ _ _ _ Hacc) as (H1 & H2 & _);
      [|constructor|constructor|].
    { intros i p s Hi Hs'. exists p. split; [|exact Hs'].
      exact (In_enumerate_value _ _ _ Hi). }
    rewrite Forall_forall in H1, H2.
    specialize (H1 _ Hin). specialize (H2 _ Hin). cbn [snd] in H1, H2.
    destruct vs as [|v0 vs]; [contradiction H2; reflexivity|].
    inversion H1 as [|? ? (p & Hp0 & _) _]; subst.
    destruct preds; [destruct Hp0|]. cbn [length] in Hlen. lia. }
  split; [exact HT1|]. split; [lia|].
  intros t n Ht Hn.
  destruct (nth_error preds t) as [p|] eqn:Ep;
    [|apply nth_error_None in Ep; lia].
  assert (Hpn : length p = N).
  { rewrite Forall_forall in Hall.
    apply (Hall p). exact (nth_error_In _ _ Ep). }
  destruct (nth_error p n) as [v|] eqn:Ev;
    [|apply nth_error_None in Ev; lia].
  unfold accumulate in Hacc.
  destruct (outer_loop_files _ _ _ _ Hacc) as [_ Hfiles].
  destruct (Hfiles t p n v (In_enumerate _ _ _ Ep) (In_enumerate _ _ _ Ev))
    as (w & r0 & sid & row & step & H1 & H2 & H3 & H4 & H5 & _).
  exists w, r0, sid, row, step. repeat split; assumption.
Qed.

End PredictShape.

Section PredictAccepts.
Context {num : Type} {Sc : Scalar num} {cl : Classifier num}.

Lemma length_mean_axis0 (vs : list (list R)) :
  length (mean_axis0 vs) = length (hd [] vs).
Proof. unfold mean_axis0. rewrite length_map, length_seq. reflexivity. Qed.

(** Every row of the matrix that [predict] returns has as many entries as
    the schema has target classes. *)
Theorem predict_rows_width :
  forall (self : TimeStepClassifier) (data : ndarray3 num)
         (m : list (list R)),
    predict self data = Ok m ->
    Forall (fun r => length r = length (target_classes (data_schema self)))
           m.
Proof.
  intros self data m H.
  destruct (predict_Ok_inv self data m H)
    as (X & ids & preds & d & sd & _ & Hp & Hacc & Hsd & -> & _).
  pose proof (compute_preds_shape_aux self X ids preds Hp) as [_ Hall].
  set (K := length (target_classes (data_schema self))) in *.
  unfold accumulate in Hacc.
  destruct (outer_loop_keeps (fun v => length v = K) _ _ _ _ Hacc)
    as (H1 & H2 & _); [|constructor|constructor|].
  { intros i p s Hi Hs. rewrite Forall_forall in Hall.
    destruct (Hall p (In_enumerate_value _ _ _ Hi)) as [_ Hp'].
    rewrite Forall_forall in Hp'. exact (Hp' s Hs). }
  unfold dict_values. apply Forall_map. apply Forall_forall.
  intros [k v] Hin. cbn [snd].
  apply (sort_dict_Ok_sub _ _ Hsd) in Hin.
  apply mean_unpadded_In in Hin. destruct Hin as (vs & Hin & ->).
  rewrite length_mean_axis0.
  rewrite Forall_forall in H1, H2.
  specialize (H1 _ Hin). specialize (H2 _ Hin). cbn [snd] in H1, H2.
  destruct vs as [|v0 vs]; [contradiction H2; reflexivity|].
  inversion H1; subst. assumption.
Qed.

(** [predict] returns only on square batches: for a well-formed tensor of
    shape (N, T, D) a call that returns has as many windows as time steps.
    With any other number of windows the loop runs out of the bounds of
    [window_ids] and the call raises. *)
Theorem predict_needs_square_batch :
  forall (self : TimeStepClassifier) (data : ndarray3 num)
         (m : list (list R)) (N T D : nat),
    shape3 data = (N, T, D) -> wf3 data ->
    predict self data = Ok m ->
    N = T.
Proof.
  intros self data m N T D Hs Hwf H.
  destruct (predict_Ok_loop self data m N T D Hs H) as (HT & HN & Hloop).
  destruct (wf3_cells data N T D Hs Hwf) as [Hlen Hcells].
  destruct (Hloop (T - 1) (N - 1)) as (w & _ & _ & row & _ & Hw & _ & _ & Hr & _);
    [lia | lia |].
  assert (Ht : T - 1 < N).
  { rewrite <- Hlen, <- (length_map (map (firstn 2))).
    apply nth_error_Some. rewrite Hw. discriminate. }
  assert (Hn : N - 1 < T).
  { apply nth_error_In in Hw. apply in_map_iff in Hw.
    destruct Hw as (w0 & <- & Hw0). rewrite Forall_forall in Hcells.
    destruct (Hcells w0 Hw0) as [Hw0T _].
    rewrite <- Hw0T, <- (length_map (firstn 2)).
    apply nth_error_Some. rewrite Hr. discriminate. }
  lia.
Qed.

(** [predict] needs the two identifier columns: on a well-formed tensor
    with fewer than two columns it raises, whatever the classifier
    does. *)
Theorem predict_needs_id_columns :
  forall (self : TimeStepClassifier) (data : ndarray3 num) (N T D : nat),
    shape3 data = (N, T, D) -> wf3 data -> D < 2 ->
    raises (predict self data).
Proof.
  intros self data N T D Hs Hwf HD.
  destruct (predict self data) as [m|e] eqn:H; [|exists e; reflexivity].
  exfalso.
  destruct (predict_Ok_loop self data m N T D Hs H) as (HT & HN & Hloop).
  destruct (wf3_cells data N T D Hs Hwf) as [_ Hcells].
  destruct (Hloop 0 0) as (w & _ & _ & row & step & Hw & _ & _ & Hr & Hstep);
    [lia | lia |].
  apply nth_error_In in Hw. apply in_map_iff in Hw.
  destruct Hw as (w0 & <- & Hw0). rewrite Forall_forall in Hcells.
  destruct (Hcells w0 Hw0) as [_ Hrows].
  apply nth_error_In in Hr. apply in_map_iff in Hr.
  destruct Hr as (r0 & <- & Hr0). rewrite Forall_forall in Hrows.
  specialize (Hrows r0 Hr0).
  assert (Hl : 1 < length (firstn 2 r0)).
  { apply nth_error_Some. rewrite Hstep. discriminate. }
  rewrite length_firstn in Hl. lia.
Qed.

(** A batch without windows is refused by all three operations: once the
    length guard is passed, [reshape(N, -1)] raises its [ValueError] in
    [fit] (which leaves the facade as it was), in [evaluate] and in
    [predict]. *)
Theorem empty_batch_raises :
  forall (self : TimeStepClassifier) (data : ndarray3 num) (T D : nat),
    shape3 data = (0, T, D) ->
    (Z.of_nat T = encode_len self ->
     fit self data =
       (self, Raise (ValueError
          "cannot reshape array of size 0 into shape (0,newaxis)")) /\
     evaluate self data =
       Raise (ValueError
          "cannot reshape array of size 0 into shape (0,newaxis)")) /\
    ((encode_len self <= Z.of_nat T)%Z ->
     predict self data =
       Raise (ValueError
          "cannot reshape array of size 0 into shape (0,newaxis)")).
Proof.
  intros self data T D Hs. split.
  - intros HT.
    assert (Hx : _get_X_and_y self data true =
                 Raise (ValueError
                   "cannot reshape array of size 0 into shape (0,newaxis)")).
    { unfold _get_X_and_y. rewrite Hs, HT, Z.eqb_refl. cbn [negb].
      unfold reshape_rows, slice_axis2. rewrite Hs. reflexivity. }
    split.
    + unfold fit. rewrite Hx. reflexivity.
    + unfold evaluate. rewrite Hx. reflexivity.
  - intros HT.
    unfold predict, predict_sorted_dict, predict_prob_dict, _get_X_and_y.
    rewrite Hs.
    destruct (Z.ltb_spec (Z.of_nat T) (encode_len self)) as [|_]; [lia|].
    unfold reshape_rows, slice_axis2. rewrite Hs. reflexivity.
Qed.

End PredictAccepts.

(** ** The row order does not depend on the insertion order *)

Lemma traverse_ext_in {A B : Type} (f g : A -> result B) (l : list A) :
  (forall a, In a l -> f a = g a) -> traverse f l = traverse g l.
Proof.
  induction l as [|a t IH]; intros H; cbn [traverse]; [reflexivity|].
  rewrite (H a (or_introl eq_refl)), IH; [reflexivity|].
  intros b Hb. apply H. right. exact Hb.
Qed.

Section OrderIndependence.
Context {num : Type} {Sc : Scalar num}.

Lemma strictly_sorted_unique (l1 l2 : list key) :
  StronglySorted key_lt l1 -> StronglySorted key_lt l2 ->
  Permutation l1 l2 -> l1 = l2.
Proof.
  intros H1. revert l2. induction H1 as [|a t1 Ht1 IH Ha]; intros l2 H2 Hp.
  - apply Permutation_nil in Hp. symmetry. exact Hp.
  - destruct l2 as [|b t2].
    { apply Permutation_sym, Permutation_nil in Hp. discriminate Hp. }
    inversion H2 as [|? ? Ht2 Hb]; subst.
    assert (Hab : a = b).
    { assert (Ha2 : In a (b :: t2))
        by (apply (Permutation_in _ Hp); left; reflexivity).
      assert (Hb1 : In b (a :: t1))
        by (apply (Permutation_in _ (Permutation_sym Hp)); left;
            reflexivity).
      destruct Ha2 as [Heq|Ha2]; [symmetry; exact Heq|].
      destruct Hb1 as [Heq|Hb1]; [exact Heq|].
      rewrite Forall_forall in Ha, Hb.
      exfalso. apply (key_lt_irrefl a).
      exact (key_lt_trans _ _ _ (Ha b Hb1) (Hb a Ha2)). }
    subst b. f_equal. apply IH; [exact Ht2|].
    exact (Permutation_cons_inv Hp).
Qed.

Lemma NoDup_keys_functional {V : Type} (d : list (@key num * V))
  (k : @key num)
  (v v' : V) :
  NoDup (dict_keys d) -> In (k, v) d -> In (k, v') d -> v = v'.
Proof.
  unfold dict_keys. induction d as [|[k0 v0] t IH]; cbn [map fst];
    intros Hnd H1 H2; [destruct H1|].
  inversion Hnd as [|? ? Hnin Ht]; subst.
  destruct H1 as [H1|H1], H2 as [H2|H2].
  - congruence.
  - injection H1 as -> ->. exfalso. apply Hnin.
    apply (in_map fst) in H2. exact H2.
  - injection H2 as -> ->. exfalso. apply Hnin.
    apply (in_map fst) in H1. exact H1.
  - exact (IH Ht H1 H2).
Qed.

Lemma dict_getitem_notin {V : Type} (d : list (key * V)) (k : key) :
  ~ In k (dict_keys d) -> dict_getitem d k = Raise (KeyError "key not found").
Proof.
  unfold dict_keys. induction d as [|[k0 v0] t IH]; cbn [map fst dict_getitem];
    intros H; [reflexivity|].
  destruct (key_eqb k k0) eqn:E.
  - apply key_eqb_eq in E. exfalso. apply H. left. symmetry. exact E.
  - apply IH. intros Hin. apply H. right. exact Hin.
Qed.

Lemma dict_getitem_perm {V : Type} (d d' : list (key * V)) (k : key) :
  NoDup (dict_keys d) -> Permutation d d' ->
  dict_getitem d k = dict_getitem d' k.
Proof.
  intros Hnd Hp.
  assert (Hk : Permutation (dict_keys d) (dict_keys d'))
    by (apply Permutation_map; exact Hp).
  assert (Hnd' : NoDup (dict_keys d'))
    by (exact (Permutation_NoDup Hk Hnd)).
  destruct (in_dec (fun a b : key =>
              match bool_dec (key_eqb a b) true with
              | left e => left (proj1 (key_eqb_eq a b) e)
              | right n => right (fun e => n (proj2 (key_eqb_eq a b) e))
              end) k (dict_keys d)) as [Hin|Hnin].
  - destruct (dict_getitem_In d k Hin) as (v & Hv & Hkv).
    destruct (dict_getitem_In d' k (Permutation_in _ Hk Hin))
      as (v' & Hv' & Hkv').
    rewrite Hv, Hv'. f_equal.
    apply (NoDup_keys_functional d k v v' Hnd Hkv).
    exact (Permutation_in _ (Permutation_sym Hp) Hkv').
  - rewrite (dict_getitem_notin d k Hnin).
    rewrite (dict_getitem_notin d' k); [reflexivity|].
    intros H. apply Hnin. exact (Permutation_in _ (Permutation_sym Hk) H).
Qed.

(** The sorted dictionary does not depend on the order in which the keys
    entered the dictionary: two dictionaries with the same entries in
    different insertion orders give the same sorted keys and the same
    sorted dictionary, hence the same rows in the same order. *)
Theorem sort_dict_order_independent :
  forall (d d' : list (key * list R)),
    NoDup (dict_keys d) -> Permutation d d' ->
    sorted (dict_keys d) = sorted (dict_keys d') /\
    sort_dict d = sort_dict d'.
Proof.
  intros d d' Hnd Hp.
  assert (Hk : Permutation (dict_keys d) (dict_keys d'))
    by (apply Permutation_map; exact Hp).
  assert (Hs : sorted (dict_keys d) = sorted (dict_keys d')).
  { apply strictly_sorted_unique.
    - apply sorted_strict. exact Hnd.
    - apply sorted_strict. exact (Permutation_NoDup Hk Hnd).
    - rewrite !sorted_perm. exact Hk. }
  split; [exact Hs|].
  unfold sort_dict. rewrite <- Hs. apply traverse_ext_in.
  intros k _. rewrite (dict_getitem_perm d d' k Hnd Hp). reflexivity.
Qed.

End OrderIndependence.

Lemma sort_dict_order_independent_witness :
  sorted (dict_keys means_a) = [(1, 10); (1, 11); (2, 20)]%Z /\
  sort_dict means_a = sort_dict means_b.
Proof.
  split; [reflexivity|].
  refine (proj2 (sort_dict_order_independent means_a means_b _ _)).
  - repeat constructor; cbn; intuition discriminate.
  - unfold means_a, means_b.
    eapply perm_trans; [apply Permutation_rev|]. reflexivity.
Defined.

(** ** The facade through [fit] and the entry points *)

Section EntryFacts.
Context {num : Type} {Sc : Scalar num} {cl : Classifier num}.

(** [fit] touches nothing but the classifier and the trained flag: the
    schema, the encode length, the padding value and the hyperparameters
    stay, the facade keeps a model, and a facade that was trained is still
    trained afterwards, also when the call raised. *)
Theorem fit_keeps_configuration :
  forall (self : TimeStepClassifier) (data : ndarray3 num),
    data_schema (fst (fit self data)) = data_schema self /\
    encode_len (fst (fit self data)) = encode_len self /\
    padding_value (fst (fit self data)) = padding_value self /\
    C (fst (fit self data)) = C self /\
    kw (fst (fit self data)) = kw self /\
    (model self <> None -> model (fst (fit self data)) <> None) /\
    (_is_trained self = true -> _is_trained (fst (fit self data)) = true).
Proof.
  intros self data. unfold fit.
  destruct (_get_X_and_y self data true) as [[X y]|e]; cbn [fst];
    [|repeat split; auto].
  unfold the_model. destruct (model self) as [m|] eqn:Hm; cbn [fst];
    [|repeat split; auto; rewrite Hm; auto].
  destruct (clf_fit m X y) as [m' [[cls msg]|]]; cbn [fst set_model];
    repeat split; auto; discriminate.
Qed.

Lemma train_predictor_model_Ok (train_data : ndarray3 num)
  (schema : TimeStepClassificationSchema) (hp : hyperparameters)
  (pad : num) (trained : TimeStepClassifier) :
  train_predictor_model train_data schema hp pad = Ok trained ->
  _is_trained trained = true /\
  encode_len trained = hp_encode_len hp /\
  padding_value trained = pad /\
  data_schema trained = schema /\
  Z.of_nat (time_dim train_data) = hp_encode_len hp.
Proof.
  unfold train_predictor_model.
  set (model0 := init schema (hp_encode_len hp) pad _ (hp_kwargs hp)).
  intros H.
  destruct (Z.eq_dec (Z.of_nat (time_dim train_data)) (hp_encode_len hp))
    as [HT|HT].
  - unfold fit in H.
    destruct (_get_X_and_y model0 train_data true) as [[X y]|e];
      [|discriminate H].
    cbn [the_model model0 init model] in H.
    destruct (clf_fit _ X y) as [m' [[cls msg]|]]; [discriminate H|].
    injection H as <-. repeat split; try reflexivity. exact HT.
  - unfold fit in H.
    rewrite (get_X_and_y_train_guard model0 train_data HT) in H.
    discriminate H.
Qed.

(** When [train_predictor_model] returns, the facade it returns is
    trained, has the schema and padding value it was given and the encode
    length of the hyperparameters, that encode length is the time
    dimension of the training tensor, and [save] no longer raises
    [NotFittedError]. *)
Theorem train_predictor_model_returns_trained :
  forall (train_data : ndarray3 num)
         (schema : TimeStepClassificationSchema) (hp : hyperparameters)
         (pad : num) (model : TimeStepClassifier),
    train_predictor_model train_data schema hp pad = Ok model ->
    _is_trained model = true /\
    data_schema model = schema /\
    padding_value model = pad /\
    encode_len model = Z.of_nat (time_dim train_data) /\
    (forall dir msg, save model dir <> Raise (NotFittedError msg)).
Proof.
  intros train_data schema hp pad model H.
  destruct (train_predictor_model_Ok _ _ _ _ _ H)
    as (Htr & Henc & Hpad & Hsch & HT).
  repeat split; try assumption.
  - rewrite Henc. symmetry. exact HT.
  - intros dir msg. unfold save. rewrite Htr. cbn [negb].
    destruct (joblib_dump _); cbn [lift_io]; discriminate.
Qed.

(** A model that [train_predictor_model] returned takes only tensors of
    the training length in [evaluate_predictor_model] and refuses every
    shorter tensor in [predict_with_model]: both raise the length error
    that names the training length and the length found. *)
Theorem trained_model_rejects_other_lengths :
  forall (train_data test_data : ndarray3 num)
         (schema : TimeStepClassificationSchema) (hp : hyperparameters)
         (pad : num) (model : TimeStepClassifier),
    train_predictor_model train_data schema hp pad = Ok model ->
    (time_dim test_data < time_dim train_data ->
     predict_with_model model test_data =
       Raise (ValueError
                (infer_length_msg (Z.of_nat (time_dim train_data))
                                  (time_dim test_data)))) /\
    (time_dim test_data <> time_dim train_data ->
     evaluate_predictor_model model test_data =
       Raise (ValueError
                (train_length_msg (Z.of_nat (time_dim train_data))
                                  (time_dim test_data)))).
Proof.
  intros train_data test_data schema hp pad model H.
  destruct (train_predictor_model_Ok _ _ _ _ _ H)
    as (_ & Henc & _ & _ & HT).
  assert (He : encode_len model = Z.of_nat (time_dim train_data))
    by (rewrite Henc; symmetry; exact HT).
  split.
  - intros Hlt. unfold predict_with_model, predict, predict_sorted_dict,
      predict_prob_dict.
    rewrite (get_X_and_y_infer_guard model test_data) by (rewrite He; lia).
    rewrite He. reflexivity.
  - intros Hne. unfold evaluate_predictor_model, evaluate.
    rewrite (get_X_and_y_train_guard model test_data) by (rewrite He; lia).
    rewrite He. reflexivity.
Qed.

(** [save_predictor_model] creates the directory before it looks at the
    model: for an untrained model the call raises [NotFittedError], and a
    directory that did not exist has been created all the same; an
    existing directory is left as it was. *)
Theorem save_predictor_model_creates_directory_first :
  forall (os : OS) (st : fs) (model : TimeStepClassifier) (dir : string),
    _is_trained model = false ->
    (path_exists st dir = true ->
     save_predictor_model st model dir =
       (st, Raise (NotFittedError not_fitted_msg))) /\
    (forall st', path_exists st dir = false ->
       makedirs st dir = (st', None) ->
       save_predictor_model st model dir =
         (st', Raise (NotFittedError not_fitted_msg))).
Proof.
  intros os st model dir Hu. unfold save_predictor_model. split.
  - intros ->. cbn [negb]. rewrite (save_untrained model dir Hu).
    reflexivity.
  - intros st' -> Hm. cbn [negb]. rewrite Hm.
    rewrite (save_untrained model dir Hu). reflexivity.
Qed.

End EntryFacts.

Lemma train_predictor_model_train2 :
  train_predictor_model train2 {| target_classes := ["0"; "1"]%string |}
                        hp2 (-1)%Z =
    Ok (set_model (init {| target_classes := ["0"; "1"]%string |}
                        2%Z (-1)%Z 1%R tt)
                  (Some (2, 2)) true).
Proof. reflexivity. Qed.

Lemma train_predictor_model_returns_trained_witness :
  exists model,
    train_predictor_model train2 {| target_classes := ["0"; "1"]%string |}
                          hp2 (-1)%Z = Ok model /\
    _is_trained model = true /\
    encode_len model = 2%Z.
Proof.
  eexists. split; [exact train_predictor_model_train2|].
  destruct (train_predictor_model_returns_trained train2
              {| target_classes := ["0"; "1"]%string |} hp2 (-1)%Z _
              train_predictor_model_train2)
    as (Htr & _ & _ & Henc & _).
  split; [exact Htr | exact Henc].
Defined.

Lemma trained_model_rejects_other_lengths_witness :
  exists model,
    train_predictor_model train2 {| target_classes := ["0"; "1"]%string |}
                          hp2 (-1)%Z = Ok model /\
    evaluate_predictor_model model long_test =
      Raise (ValueError (train_length_msg 2 3)).
Proof.
  eexists. split; [exact train_predictor_model_train2|].
  refine (proj2 (trained_model_rejects_other_lengths train2 long_test
                   {| target_classes := ["0"; "1"]%string |} hp2 (-1)%Z
                   _ train_predictor_model_train2) _).
  cbn. lia.
Defined.

Lemma save_predictor_model_creates_directory_first_witness :
  save_predictor_model (os := stub_os) [] facade0 "model_dir" =
    (["model_dir"%string], Raise (NotFittedError not_fitted_msg)).
Proof.
  refine (proj2 (save_predictor_model_creates_directory_first stub_os []
                   facade0 "model_dir" eq_refl) _ eq_refl eq_refl).
Defined.

(** ** The further properties on concrete tensors *)

Lemma wf3_infer2 : wf3 infer2.
Proof. unfold wf3. cbn. split; [reflexivity|]. repeat constructor. Qed.

Lemma wf3_one_column : wf3 one_column.
Proof. unfold wf3. cbn. split; [reflexivity|]. repeat constructor. Qed.

Lemma compute_preds_shape_witness :
  exists (X : ndarray2 Z) (ids : ndarray3 Z) (preds : list (list (list R))),
    _get_X_and_y facade26 infer34 false = Ok (X, ids) /\
    compute_preds facade26 X ids = Ok preds /\
    preds_shape 3 3 2 preds.
Proof.
  eexists. eexists. eexists.
  split; [reflexivity|].
  refine ((fun H => conj H (compute_preds_shape facade26 _ _ _ H)) _).
  reflexivity.
Defined.

Lemma accumulate_conserves_witness :
  exists d : list (@key Z * list (list R)),
    accumulate preds2 ids2 = Ok d /\ dict_total d = 4.
Proof.
  eexists.
  refine ((fun H => conj H (proj1 (accumulate_conserves preds2 ids2 _ H)))
            _).
  reflexivity.
Defined.

Lemma accumulate_files_under_witness :
  exists (d : list (@key Z * list (list R))) (series_id step_id : Z),
    accumulate preds2 ids2 = Ok d /\
    (series_id, step_id) = (1, 11)%Z /\
    In p01 (dict_get d (series_id, step_id) []).
Proof.
  destruct (accumulate_files_under preds2 ids2 _ 0 1 [p00; p01] p01
              eq_refl eq_refl eq_refl)
    as (w & r0 & sid & row & step & Hw & Hr0 & Hsid & Hrow & Hstep & Hin).
  eexists. exists sid, step. split; [reflexivity|].
  injection Hw as <-. injection Hr0 as <-. injection Hsid as <-.
  injection Hrow as <-. injection Hstep as <-.
  split; [reflexivity | exact Hin].
Defined.

Lemma predict_rows_width_witness :
  Forall (fun r => length r = 2)
         (repeat (mean_axis0 [[1 - sigmoid 0; sigmoid 0]%R]) 4).
Proof.
  exact (predict_rows_width facade1 infer2 _ predict_infer2_rows).
Defined.

Lemma predict_needs_square_batch_witness :
  shape3 infer2 = (2, 2, 3) /\ 2 = 2.
Proof.
  split; [reflexivity|].
  exact (predict_needs_square_batch facade1 infer2 _ 2 2 3 eq_refl
           wf3_infer2 predict_infer2_rows).
Defined.

Lemma predict_needs_id_columns_witness :
  raises (predict facade1 one_column).
Proof.
  refine (predict_needs_id_columns facade1 one_column 2 2 1 eq_refl
            wf3_one_column _).
  lia.
Defined.

Lemma empty_batch_raises_witness :
  fit facade0 empty_batch =
    (facade0, Raise (ValueError
       "cannot reshape array of size 0 into shape (0,newaxis)")) /\
  predict facade0 empty_batch =
    Raise (ValueError
       "cannot reshape array of size 0 into shape (0,newaxis)").
Proof.
  destruct (empty_batch_raises facade0 empty_batch 2 4 eq_refl)
    as [Htrain Hinfer].
  split.
  - apply Htrain. reflexivity.
  - apply Hinfer. cbn. lia.
Defined.

(** ** Estimators that disagree with the schema, tensors without columns,
    and the single step *)

Section MoreEdges.
Context {num : Type} {Sc : Scalar num} {cl : Classifier num}.

Lemma fill_preds_vector_scores_raise (N K : nat) (X : ndarray2 num)
  (ests : list (nat * estimator)) (preds : list (list (list R)))
  (i : nat) (est : estimator) (s : list R) :
  K <> 2 -> In (i, est) ests ->
  decision_function est X = LibOk (Scores1 s) ->
  raises (fill_preds N K X ests preds).
Proof.
  intros HK Hin Hd. revert preds.
  induction ests as [|[i0 est0] rest IH]; intros preds; [destruct Hin|].
  cbn [fill_preds].
  destruct Hin as [Heq|Hin].
  - injection Heq as -> ->. rewrite Hd. cbn [lift bind].
    unfold helper. apply Nat.eqb_neq in HK. rewrite HK.
    cbn [softmax_helper bind]. eexists. reflexivity.
  - destruct (lift (decision_function est0 X)) as [y|e]; cbn [bind];
      [|eexists; reflexivity].
    destruct (helper K y) as [p|e]; cbn [bind]; [|eexists; reflexivity].
    destruct (broadcast2 N K p) as [p'|e]; cbn [bind];
      [|eexists; reflexivity].
    destruct (setitem i0 p' preds) as [preds'|e]; cbn [bind];
      [|eexists; reflexivity].
    exact (IH Hin preds').
Qed.

(** An estimator that returns a vector of scores, as a binary estimator
    does, under a schema that does not have exactly two target classes
    makes [predict] raise: [softmax] takes its maximum along axis 1, which
    a vector does not have. *)
Theorem predict_raises_on_vector_scores :
  forall (self : TimeStepClassifier) (data : ndarray3 num)
         (X : ndarray2 num) (ids : ndarray3 num) (m : clf)
         (ests : list estimator) (est : estimator) (s : list R),
    _get_X_and_y self data false = Ok (X, ids) ->
    model self = Some m ->
    estimators_ m = LibOk ests ->
    In est ests ->
    decision_function est X = LibOk (Scores1 s) ->
    length (target_classes (data_schema self)) <> 2 ->
    raises (predict self data).
Proof.
  intros self data X ids m ests est s Hx Hm He Hin Hd HK.
  destruct (In_nth_error _ _ Hin) as [i Hi].
  destruct (fill_preds_vector_scores_raise (fst (shape2 X))
              (length (target_classes (data_schema self))) X
              (enumerate ests)
              (zeros (snd (fst (shape3 ids))) (fst (shape2 X))
                     (length (target_classes (data_schema self))))
              i est s HK (In_enumerate _ _ _ Hi) Hd) as [e Hf].
  exists e. unfold predict, predict_sorted_dict, predict_prob_dict.
  rewrite Hx. cbn [bind]. unfold compute_preds, the_model.
  rewrite Hm. cbn [bind]. rewrite He. cbn [lift bind].
  rewrite Hf. reflexivity.
Qed.

(** A training or test tensor without columns passes the length guard and
    then fails on its last column: [fit] and [evaluate] raise
    [IndexError], and [fit] leaves the facade as it was. *)
Theorem no_columns_raise_index_error :
  forall (self : TimeStepClassifier) (data : ndarray3 num) (N T : nat),
    shape3 data = (N, T, 0) -> N <> 0 ->
    Z.of_nat T = encode_len self ->
    fit self data =
      (self, Raise (IndexError "index is out of bounds for axis 2")) /\
    evaluate self data =
      Raise (IndexError "index is out of bounds for axis 2").
Proof.
  intros self data N T Hs HN HT.
  assert (Hx : _get_X_and_y self data true =
               Raise (IndexError "index is out of bounds for axis 2")).
  { unfold _get_X_and_y. rewrite Hs, HT, Z.eqb_refl. cbn [negb].
    unfold reshape_rows, slice_axis2, index_axis2. rewrite Hs.
    cbn [shape3]. apply Nat.eqb_neq in HN. rewrite HN. reflexivity. }
  split.
  - unfold fit. rewrite Hx. reflexivity.
  - unfold evaluate. rewrite Hx. reflexivity.
Qed.

(** On one window of one step the aggregation changes nothing: when
    [predict] returns, the matrix is the single decoded vector
    [preds[0][0]]. *)
Theorem predict_single_step :
  forall (self : TimeStepClassifier) (data : ndarray3 num)
         (m : list (list R)) (D : nat),
    shape3 data = (1, 1, D) -> wf3 data ->
    predict self data = Ok m ->
    exists (X : ndarray2 num) (ids : ndarray3 num) (v : list R),
      _get_X_and_y self data false = Ok (X, ids) /\
      compute_preds self X ids = Ok [[v]] /\
      m = [v].
Proof.
  intros self data m D Hs Hwf H.
  destruct (predict_Ok_inv self data m H)
    as (X & ids & preds & d & sd & Hx & Hp & Hacc & Hsd & -> & Hne).
  destruct (get_X_and_y_infer_Ok self data X ids 1 1 D Hs Hx)
    as (_ & _ & HXN & HT & Hcells).
  pose proof (compute_preds_shape_aux self X ids preds Hp) as [Hlen Hall].
  rewrite HT in Hlen. rewrite HXN in Hall.
  destruct preds as [|p [|p' preds]]; try discriminate Hlen.
  inversion Hall as [|? ? [Hp1 _] _]; subst.
  destruct p as [|v [|v' p]]; try discriminate Hp1.
  exists X, ids, v. split; [exact Hx|]. split; [exact Hp|].
  destruct (wf3_cells data 1 1 D Hs Hwf) as [Hl Hc].
  rewrite Hcells in Hacc.
  destruct (cells3 data) as [|w0 [|w1 c]]; try discriminate Hl.
  inversion Hc as [|? ? [Hw0 _] _]; subst.
  destruct w0 as [|r [|r' w0]]; try discriminate Hw0.
  destruct r as [|sid [|step r]]; try discriminate Hacc.
  cbv [accumulate enumerate length seq combine map firstn outer_loop
       inner_loop getitem nth_error bind dict_get dict_set app] in Hacc.
  injection Hacc as <-.
  unfold mean_unpadded in Hsd. cbn [filter fst snd] in Hsd.
  destruct (negb (num_eqb step (padding_value self))).
  - cbn [map fst snd] in Hsd. unfold sort_dict in Hsd.
    cbn [dict_keys map fst sorted fold_right insert_sorted traverse
         dict_getitem] in Hsd.
    replace (key_eqb (sid, step) (sid, step)) with true in Hsd
      by (symmetry; apply key_eqb_eq; reflexivity).
    cbn [bind] in Hsd. injection Hsd as <-.
    cbn [dict_values map snd]. rewrite mean_axis0_singleton. reflexivity.
  - cbn [map] in Hsd. cbn in Hsd. injection Hsd as <-.
    contradiction Hne. reflexivity.
Qed.

End MoreEdges.

Lemma predict_raises_on_vector_scores_witness :
  raises (predict facade3 infer2).
Proof.
  refine (predict_raises_on_vector_scores facade3 infer2 _ _ (Some (2, 2))
            [(0, 2); (1, 2)] (0, 2) [0; 0]%R eq_refl eq_refl eq_refl _
            eq_refl _).
  - left. reflexivity.
  - change (3 <> 2). lia.
Defined.

Lemma no_columns_raise_index_error_witness :
  fit facade0 no_columns =
    (facade0, Raise (IndexError "index is out of bounds for axis 2")).
Proof.
  refine (proj1 (no_columns_raise_index_error facade0 no_columns 1 2
                   eq_refl _ eq_refl)).
  discriminate.
Defined.

Lemma wf3_infer11 : wf3 infer11.
Proof. unfold wf3. cbn. split; [reflexivity|]. repeat constructor. Qed.

Lemma predict_infer11 :
  predict facade11 infer11 = Ok [mean_axis0 [[1 - sigmoid 0; sigmoid 0]%R]].
Proof. reflexivity. Qed.

Lemma predict_single_step_witness :
  exists v : list R,
    predict facade11 infer11 = Ok [mean_axis0 [[1 - sigmoid 0; sigmoid 0]%R]] /\
    [mean_axis0 [[1 - sigmoid 0; sigmoid 0]%R]] = [v].
Proof.
  destruct (predict_single_step facade11 infer11 _ 3 eq_refl wf3_infer11
              predict_infer11) as (X & ids & v & _ & _ & Hv).
  exists v. split; [exact predict_infer11 | exact Hv].
Defined.

(** ** The zero blocks in the aggregation *)

Section ZeroBlocks.
Context {num : Type} {Sc : Scalar num} {cl : Classifier num}.

Lemma dict_get_In {V : Type} (d : list (key * list V)) (k : key) (v : V) :
  In v (dict_get d k []) -> In (k, dict_get d k []) d.
Proof.
  induction d as [|[k0 v0] t IH]; cbn [dict_get]; [intros []|].
  destruct (key_eqb k k0) eqn:E.
  - intros _. apply key_eqb_eq in E. subst k0. left. reflexivity.
  - intros H. right. exact (IH H).
Qed.

(** The step-outputs beyond the fitted estimators are never written and
    are aggregated all the same: when the classifier has fewer estimators
    than the tensor has time steps and the accumulation goes through, then
    for every step-output [t] from the number of estimators on and every
    window [n] the all-zero vector [preds[t][n]] is in the list that
    [prob_dict] holds for the key
    [(window_ids[t][0][0], window_ids[t][n][1])], the list the mean of
    that key is taken over. *)
Theorem zero_beyond_estimators_is_aggregated :
  forall (self : TimeStepClassifier) (data : ndarray3 num)
         (d : list (key * list (list R))) (m : clf)
         (ests : list estimator) (N T D t n : nat),
    shape3 data = (N, T, D) ->
    predict_prob_dict self data = Ok d ->
    model self = Some m ->
    estimators_ m = LibOk ests ->
    length ests <= t < T -> n < N ->
    exists window row0 series_id row step_id vs,
      nth_error (map (map (firstn 2)) (cells3 data)) t = Some window /\
      nth_error window 0 = Some row0 /\
      nth_error row0 0 = Some series_id /\
      nth_error window n = Some row /\
      nth_error row 1 = Some step_id /\
      In ((series_id, step_id), vs) d /\
      In (repeat 0%R (length (target_classes (data_schema self)))) vs.
Proof.
  intros self data d m ests N T D t n Hs H Hm He Ht Hn.
  unfold predict_prob_dict in H.
  apply bind_Ok in H. destruct H as ([X ids] & Hx & H).
  apply bind_Ok in H. destruct H as (preds & Hp & Hacc).
  destruct (get_X_and_y_infer_Ok self data X ids N T D Hs Hx)
    as (_ & _ & HXN & HT & Hcells).
  pose proof (compute_preds_zero_block self X ids preds m ests t Hp Hm He)
    as Hz.
  rewrite HT, HXN in Hz. specialize (Hz Ht).
  rewrite Hcells in Hacc. unfold accumulate in Hacc.
  destruct (outer_loop_files _ _ _ _ Hacc) as [_ Hfiles].
  destruct (Hfiles t _ n _ (In_enumerate _ _ _ Hz)
              (In_enumerate _ _ _ (nth_error_repeat _ Hn)))
    as (w & r0 & sid & row & step & H1 & H2 & H3 & H4 & H5 & H6).
  exists w, r0, sid, row, step, (dict_get d (sid, step) []).
  repeat split; try assumption.
  exact (dict_get_In _ _ _ H6).
Qed.

End ZeroBlocks.

Lemma predict_prob_dict_infer34 :
  predict_prob_dict facade26 infer34 =
    Ok [ ((1, 10)%Z, [[1 - sigmoid 0; sigmoid 0]%R]);
         ((1, 11)%Z, [[1 - sigmoid 0; sigmoid 0]%R]);
         ((1, 12)%Z, [[1 - sigmoid 0; sigmoid 0]%R]);
         ((2, 20)%Z, [[1 - sigmoid 0; sigmoid 0]%R]);
         ((2, 21)%Z, [[1 - sigmoid 0; sigmoid 0]%R]);
         ((2, 22)%Z, [[1 - sigmoid 0; sigmoid 0]%R]);
         ((3, 30)%Z, [[0; 0]%R]);
         ((3, 31)%Z, [[0; 0]%R]);
         ((3, 32)%Z, [[0; 0]%R]) ].
Proof. reflexivity. Qed.

Lemma zero_beyond_estimators_is_aggregated_witness :
  exists (series_id step_id : Z) (vs : list (list R)),
    (series_id, step_id) = (3, 30)%Z /\
    In ((series_id, step_id), vs)
       [ ((1, 10)%Z, [[1 - sigmoid 0; sigmoid 0]%R]);
         ((1, 11)%Z, [[1 - sigmoid 0; sigmoid 0]%R]);
         ((1, 12)%Z, [[1 - sigmoid 0; sigmoid 0]%R]);
         ((2, 20)%Z, [[1 - sigmoid 0; sigmoid 0]%R]);
         ((2, 21)%Z, [[1 - sigmoid 0; sigmoid 0]%R]);
         ((2, 22)%Z, [[1 - sigmoid 0; sigmoid 0]%R]);
         ((3, 30)%Z, [[0; 0]%R]);
         ((3, 31)%Z, [[0; 0]%R]);
         ((3, 32)%Z, [[0; 0]%R]) ] /\
    In [0; 0]%R vs.
Proof.
  destruct (zero_beyond_estimators_is_aggregated facade26 infer34 _
              (Some (2, 6)) [(0, 6); (1, 6)] 3 3 4 2 0 eq_refl
              predict_prob_dict_infer34 eq_refl eq_refl)
    as (w & r0 & sid & row & step & vs & Hw & Hr0 & Hsid & Hrow & Hstep
        & Hin & Hz); [cbn; lia | lia |].
  exists sid, step, vs.
  injection Hw as <-. injection Hr0 as <-. injection Hsid as <-.
  injection Hrow as <-. injection Hstep as <-.
  split; [reflexivity|]. split; [exact Hin | exact Hz].
Defined.
